(** * light_monitor.py: the sampling / aggregation / flush loop

    A shallow embedding of [src/light_monitor.py]: the Line Parser
    ([parse_arduino_data]), the Sample Reader ([get_arduino_data]), the
    Minute Aggregator ([data_aggregation]), the one-minute sampling loop and
    the flush branch of the main loop.

    Conventions.
    - A Python [bytes] object is a [list byte]; a Python [str] produced by
      decoding is the list of its Unicode code points ([list N]); field
      names, configuration strings and file names are Rocq [string]s.
    - A Python [float] is a value of the carrier of a [PyFloat] structure:
      the builtin [float()], the comparison used by the reductions, the mean
      of two doubles and [str()] are the structure's operations.  [QFloat]
      is an instance with exact rationals, used to run the code on concrete
      lines.
    - A computation that prints, reads the clock, reads the serial line or
      raises is a [Py A]: a function from the [world] to an [outcome A] and
      the next world.  The clock and the serial line are oracles of the
      environment ([env]): the k-th reading is whatever the environment
      says, so every sequence of readings is covered. *)

From Stdlib Require Import ZArith NArith QArith List Ascii String Lia.
From Stdlib Require Import Strings.Byte.
From Stdlib Require Import Permutation Sorted.
From stdpp Require Import base option list gmap strings pretty.

Local Open Scope Z_scope.
Local Open Scope string_scope.
Local Open Scope list_scope.

(** ** Exceptions and outcomes *)

(** The exception classes the modelled code can meet. *)
Inductive exn :=
  | UnicodeDecodeError
  | ValueError
  | TypeError
  | KeyError (key : string)
  | NameError (name : string)
  | UnboundLocalError (name : string)
  | SerialException
  | OSError.

(** What a call does: it returns a value or it raises. *)
Inductive outcome (A : Type) :=
  | Ok (a : A)
  | Raise (e : exn).
Arguments Ok {A} a.
Arguments Raise {A} e.

Definition outcome_bind {A B} (o : outcome A) (k : A → outcome B) : outcome B :=
  match o with
  | Ok a => k a
  | Raise e => Raise e
  end.

Definition outcome_map {A B} (f : A → B) (o : outcome A) : outcome B :=
  outcome_bind o (λ a, Ok (f a)).

(** How a pass through the body of a [while True] ends. *)
Inductive control (A : Type) :=
  | Continue (a : A)
  | Break (a : A).
Arguments Continue {A} a.
Arguments Break {A} a.

(** ** Python [str]: decoding, [strip], [split] *)

Definition pystr := list N.

(** The code points of an ASCII literal. *)
Definition lit (s : string) : pystr :=
  map (λ b, Byte.to_N b) (list_byte_of_string s).

Definition CR : N := 13.
Definition LF : N := 10.
Definition SEMICOLON : N := 59.

Definition in_range (lo hi b : N) : bool := ((lo <=? b) && (b <=? hi))%N.

(** A continuation byte, 10xxxxxx. *)
Definition is_cont (b : N) : bool := in_range 128 191 b.

Definition payload (b : N) : N := (b - 128)%N.

(** [str(b, 'utf-8')] on the byte values: the strict decoder.  Overlong
    forms, surrogates (ED A0..BF), lead bytes C0, C1, F5..FF and code points
    above U+10FFFF are refused; [None] stands for [UnicodeDecodeError]. *)
Fixpoint utf8_decode (bs : list N) : option pystr :=
  match bs with
  | [] => Some []
  | b0 :: r0 =>
    if (b0 <? 128)%N then cons b0 <$> utf8_decode r0
    else if in_range 194 223 b0 then
      match r0 with
      | b1 :: r1 =>
        if is_cont b1
        then cons ((b0 - 192) * 64 + payload b1)%N <$> utf8_decode r1
        else None
      | _ => None
      end
    else if in_range 224 239 b0 then
      match r0 with
      | b1 :: b2 :: r2 =>
        let lo := if (b0 =? 224)%N then 160%N else 128%N in
        let hi := if (b0 =? 237)%N then 159%N else 191%N in
        if in_range lo hi b1 && is_cont b2
        then cons ((b0 - 224) * 4096 + payload b1 * 64 + payload b2)%N
               <$> utf8_decode r2
        else None
      | _ => None
      end
    else if in_range 240 244 b0 then
      match r0 with
      | b1 :: b2 :: b3 :: r3 =>
        let lo := if (b0 =? 240)%N then 144%N else 128%N in
        let hi := if (b0 =? 244)%N then 143%N else 191%N in
        if in_range lo hi b1 && is_cont b2 && is_cont b3
        then cons ((b0 - 240) * 262144 + payload b1 * 4096
                   + payload b2 * 64 + payload b3)%N
               <$> utf8_decode r3
        else None
      | _ => None
      end
    else None
  end.

Definition decode_utf8 (raw : list byte) : option pystr :=
  utf8_decode (map Byte.to_N raw).

Definition mem (c : N) (chars : pystr) : bool := existsb (N.eqb c) chars.

Fixpoint lstrip (chars s : pystr) : pystr :=
  match s with
  | c :: s' => if mem c chars then lstrip chars s' else s
  | [] => []
  end.

Definition rstrip (chars s : pystr) : pystr := rev (lstrip chars (rev s)).

(** [s.strip(chars)]: characters of [chars] are removed from both ends. *)
Definition strip (chars s : pystr) : pystr := rstrip chars (lstrip chars s).

(** [s.split(sep)] for a one-character separator: never the empty list,
    [''.split(';')] is [['']]. *)
Fixpoint split (sep : N) (s : pystr) : list pystr :=
  match s with
  | [] => [[]]
  | c :: s' =>
    if (c =? sep)%N then [] :: split sep s'
    else match split sep s' with
         | part :: parts => (c :: part) :: parts
         | [] => [[c]]
         end
  end.

(** ** Python [float] *)

(** The operations on doubles the program uses.  [py_float] is the builtin
    [float()] on a [str] ([None] stands for [ValueError]); [F_leb] is [<=];
    [F_mean2] is the mean of two doubles (the median of an even count);
    [F_str] is [str()] of a double. *)
Class PyFloat := {
  F : Type;
  py_float : pystr → option F;
  F_isnan : F → bool;
  F_nan : F;
  F_leb : F → F → bool;
  F_mean2 : F → F → F;
  F_str : F → string
}.

(** [<=] is a total preorder on the doubles that are not NaN. *)
Class PyFloatOrder (fm : PyFloat) : Prop := {
  F_leb_total : ∀ a b : F,
    F_isnan a = false → F_isnan b = false → F_leb a b = false → F_leb b a = true;
  F_leb_trans : ∀ a b c : F,
    F_leb a b = true → F_leb b c = true → F_leb a c = true
}.

(** The library calls whose text the program only passes on:
    [datetime.strftime] (format, then the time), [str()] of a [datetime]
    and [os.path.join]. *)
Class PyLib := {
  strftime : string → Z → string;
  datetime_str : Z → string;
  os_path_join : string → string → string
}.

(** ** Configuration values *)

(** A value of the YAML configuration: [None], a bool, an int, a text, or
    any other object, given by its [str()] and its truth value. *)
Inductive pyval :=
  | PyNone
  | PyBool (b : bool)
  | PyInt (n : Z)
  | PyStr (s : string)
  | PyObj (repr : string) (truth : bool).

(** [str(v)], also what an f-string puts for [{v}]. *)
Definition str_of (v : pyval) : string :=
  match v with
  | PyNone => "None"
  | PyBool true => "True"
  | PyBool false => "False"
  | PyInt n => pretty n
  | PyStr s => s
  | PyObj repr _ => repr
  end.

(** [if v:] *)
Definition truthy (v : pyval) : bool :=
  match v with
  | PyNone => false
  | PyBool b => b
  | PyInt n => negb (n =? 0)%Z
  | PyStr s => negb (String.eqb s "")
  | PyObj _ truth => truth
  end.

(** [v is not None] *)
Definition is_not_None (v : pyval) : bool :=
  match v with PyNone => false | _ => true end.

(** [type(v) == type(1)]: an int, and not a bool. *)
Definition is_int (v : pyval) : bool :=
  match v with PyInt _ => true | _ => false end.

#[export] Instance outcome_ret : MRet outcome := @Ok.
#[export] Instance outcome_mbind : MBind outcome := λ A B k o, outcome_bind o k.

(** [config_data.get(key, default)] *)
Definition config_get (config_data : gmap string pyval) (key : string)
  (default : pyval) : pyval :=
  match config_data !! key with
  | Some v => v
  | None => default
  end.

(** [config_data[key]] *)
Definition config_item (config_data : gmap string pyval) (key : string)
  : outcome pyval :=
  match config_data !! key with
  | Some v => Ok v
  | None => Raise (KeyError key)
  end.

(** The f-string head the three file names share:
    [cage_{str(config_data['cage_id'])}_{config_data['bird_name']}_{curr_time}]. *)
Definition file_name_head (config_data : gmap string pyval) (curr_time : string)
  : outcome string :=
  cage_id ← config_item config_data "cage_id";
  bird_name ← config_item config_data "bird_name";
  mret ("cage_" +:+ str_of cage_id +:+ "_" +:+ str_of bird_name +:+ "_" +:+ curr_time).

(** The [if]/[elif]/[elif] of the flush branch: the binding of [file_name]
    it leaves, [None] when no branch is taken, since no [else] binds the
    name.  The f-strings raise [KeyError] inside the chain. *)
Definition bind_file_name (config_data : gmap string pyval) (curr_time : string)
  : outcome (option string) :=
  let days_offset := config_get config_data "days_offset" (PyInt 0) in
  let stable_date := config_get config_data "stable_date" (PyInt 0) in
  let sunrise := config_get config_data "sunrise" (PyInt 0) in
  let sunset := config_get config_data "sunset" (PyInt 0) in
  if is_not_None sunrise && is_not_None sunset then
    head ← file_name_head config_data curr_time;
    mret (Some (head +:+ "_manually_set.csv"))
  else if is_not_None stable_date then
    head ← file_name_head config_data curr_time;
    mret (Some (head +:+ "_stable_date_" +:+ str_of stable_date +:+ ".csv"))
  else if is_int days_offset then
    head ← file_name_head config_data curr_time;
    mret (Some (head +:+ "_Days_offset_" +:+ str_of days_offset +:+ ".csv"))
  else mret None.

(** Reading the global [name]: [NameError] when nothing has bound it. *)
Definition read_name (name : string) (binding : option string)
  : outcome string :=
  match binding with
  | Some v => Ok v
  | None => Raise (NameError name)
  end.

(** The file name of a flush: the binding the chain leaves, read as the
    flush reads it.  The loop never reassigns [config_data], so a flush that
    takes none of the three branches finds the name unbound, and later
    flushes never happen.  (The flush itself looks the output directory up
    before it reads the name: [join_output_path] below.) *)
Definition flush_file_name (config_data : gmap string pyval) (curr_time : string)
  : outcome string :=
  file_name ← bind_file_name config_data curr_time;
  read_name "file_name" file_name.

(** ** Time *)

(** [(b - a).seconds] for a difference of [d] microseconds: a [timedelta] is
    normalised to days, seconds in [0, 86400) and microseconds, and
    [.seconds] is the middle part, not the length of the interval. *)
Definition timedelta_seconds (d : Z) : Z := (d / 1000000) mod 86400.

(** [(now - hour_loop_start_time).seconds / 60 >= FILE_WRITE_DELAY_MINS],
    with [/] the true division. *)
Definition FILE_WRITE_DELAY_MINS : Z := 3.

Definition flush_due (hour_loop_start_time t : Z) : bool :=
  let minutes_since_start :=
    (inject_Z (timedelta_seconds (t - hour_loop_start_time)) / 60)%Q in
  Qle_bool (inject_Z FILE_WRITE_DELAY_MINS) minutes_since_start.

(** [(now - minute_loop_start_time).seconds >= 60] *)
Definition minute_over (minute_loop_start_time t : Z) : bool :=
  (60 <=? timedelta_seconds (t - minute_loop_start_time))%Z.

(** ** Records, the environment and the [Py] monad *)

Section Model.
Context {fm : PyFloat} {lib : PyLib}.

(** What a dict of this program holds: a parsed double, a text, or a
    [datetime] (microseconds since the epoch, naive local time). *)
Inductive value :=
  | VFloat (x : F)
  | VStr (s : string)
  | VDateTime (t : Z).

(** A Python dict with string keys keeps insertion order: an association
    list without repeated keys. *)
Definition record := list (string * value).

Fixpoint dict_get (k : string) (d : record) : option value :=
  match d with
  | [] => None
  | (k', v) :: d' => if String.eqb k k' then Some v else dict_get k d'
  end.

(** [d[k] = v]: an existing key keeps its place, a new one goes last. *)
Fixpoint dict_set (k : string) (v : value) (d : record) : record :=
  match d with
  | [] => [(k, v)]
  | (k', v') :: d' =>
    if String.eqb k k' then (k, v) :: d' else (k', v') :: dict_set k v d'
  end.

(** [dict(pairs)] *)
Definition dict (pairs : list (string * value)) : record :=
  fold_left (λ d kv, dict_set kv.1 kv.2 d) pairs [].

(** What the program prints, with the values its messages embed. *)
Inductive event :=
  | EvParseFailed (raw_data : pystr) (err : exn)
  | EvReadFailed (err : exn)
  | EvIgnored (arduino_raw_data : list byte)
  | EvAggFailed (list_of_data_points : list record) (err : exn)
  | EvCurrentTime (t : Z)
  | EvMinuteDone
  | EvAggregated
  | EvFlushDue
  | EvWrote (output_path : string)
  | EvNotSaving.

(** How [df.to_csv(path)] fails: before the file is opened, when nothing is
    created (a directory that does not exist), or after the file was created
    or truncated, when it is left with what was written until then, here
    the first [rows_written] rows. *)
Inductive write_failure :=
  | NotOpened (err : exn)
  | Interrupted (err : exn) (rows_written : nat).

Definition error_of (f : write_failure) : exn :=
  match f with
  | NotOpened err => err
  | Interrupted err _ => err
  end.

(** The environment: what the k-th [datetime.datetime.now()] returns, what
    the k-th [serial_device.readline()] does, and whether and how writing a
    file at a path fails. *)
Record env := {
  clock : nat → Z;
  serial_readline : nat → outcome (list byte);
  to_csv_error : string → option write_failure
}.

Record world := {
  clock_reads : nat;
  serial_reads : nat;
  stdout : list event;
  slept : Z;
  disk : list (string * list record)
}.

Definition world0 : world :=
  {| clock_reads := 0; serial_reads := 0; stdout := []; slept := 0; disk := [] |}.

Definition Py (A : Type) : Type := world → outcome A * world.

#[export] Instance Py_ret : MRet Py := λ A a w, (Ok a, w).

#[export] Instance Py_bind : MBind Py := λ A B k m w,
  match m w with
  | (Ok a, w') => k a w'
  | (Raise e, w') => (Raise e, w')
  end.

Definition raise {A} (e : exn) : Py A := λ w, (Raise e, w).

(** [try: m  except Exception as err: ...]: the outcome of [m] as a value. *)
Definition attempt {A} (m : Py A) : Py (outcome A) := λ w,
  let '(o, w') := m w in (Ok o, w').

Definition lift {A} (o : outcome A) : Py A := λ w, (o, w).

Variable E : env.

Definition now : Py Z := λ w,
  (Ok (clock E (clock_reads w)),
   {| clock_reads := S (clock_reads w); serial_reads := serial_reads w;
      stdout := stdout w; slept := slept w; disk := disk w |}).

Definition readline : Py (list byte) := λ w,
  (serial_readline E (serial_reads w),
   {| clock_reads := clock_reads w; serial_reads := S (serial_reads w);
      stdout := stdout w; slept := slept w; disk := disk w |}).

Definition print (e : event) : Py unit := λ w,
  (Ok (),
   {| clock_reads := clock_reads w; serial_reads := serial_reads w;
      stdout := stdout w ++ [e]; slept := slept w; disk := disk w |}).

Definition sleep (secs : Z) : Py unit := λ w,
  (Ok (),
   {| clock_reads := clock_reads w; serial_reads := serial_reads w;
      stdout := stdout w; slept := slept w + secs; disk := disk w |}).

(** [df.to_csv(path)]: the file is opened, which creates or truncates it,
    and the rows are written one after the other; a write that fails on the
    way leaves the file with the rows written so far. *)
Definition to_csv (path : string) (rows : list record) : Py unit := λ w,
  match to_csv_error E path with
  | Some (NotOpened err) => (Raise err, w)
  | Some (Interrupted err rows_written) =>
    (Raise err,
     {| clock_reads := clock_reads w; serial_reads := serial_reads w;
        stdout := stdout w; slept := slept w;
        disk := disk w ++ [(path, take rows_written rows)] |})
  | None =>
    (Ok (),
     {| clock_reads := clock_reads w; serial_reads := serial_reads w;
        stdout := stdout w; slept := slept w;
        disk := disk w ++ [(path, rows)] |})
  end.

(** ** Line Parser *)

Definition CSV_FIELD_NAMES : list string :=
  ["dateTime"; "lights_on_time"; "lights_off_time"].

(** The body of the [try] of [parse_arduino_data]: the binding of the local
    [raw_data] when the body stops ([None]: never assigned), and how the
    body ends.  The list comprehension stops at the first part [float()]
    refuses. *)
Definition parse_try (arduino_raw_data : list byte)
  : option pystr * outcome (list F) :=
  match decode_utf8 arduino_raw_data with
  | None => (None, Raise UnicodeDecodeError)
  | Some raw_data =>
    let data_packet := raw_data in
    let data_packet := strip [CR; LF] data_packet in
    let data_packet := split SEMICOLON data_packet in
    (Some raw_data,
     match mapM py_float data_packet with
     | Some data_packet => Ok data_packet
     | None => Raise ValueError
     end)
  end.

(** The handler formats [raw_data] into its message: when the body stopped
    before assigning it, reading the local raises [UnboundLocalError], and
    that leaves the function. *)
Definition parse_arduino_data (arduino_raw_data : list byte)
  : Py (option (list F)) :=
  match parse_try arduino_raw_data with
  | (_, Ok data_packet) => mret (Some data_packet)
  | (raw_data, Raise err) =>
    match raw_data with
    | Some raw_data => print (EvParseFailed raw_data err);; mret None
    | None => raise (UnboundLocalError "raw_data")
    end
  end.

(** ** Sample Reader *)

Definition get_arduino_data : Py (option record) :=
  current_time ← now;
  let formatted_time := strftime "%Y_%m_%d_%H_%M_%S.%f" current_time in
  r ← attempt readline;
  match r with
  | Raise err => print (EvReadFailed err);; mret None
  | Ok arduino_raw_data =>
    data_packet ← parse_arduino_data arduino_raw_data;
    match data_packet with
    | None => print (EvIgnored arduino_raw_data);; mret None
    | Some data_packet =>
      if negb (length data_packet =? length CSV_FIELD_NAMES - 1)%nat
      then print (EvIgnored arduino_raw_data);; mret None
      else
        let data_packet := (VFloat <$> data_packet) ++ [VStr formatted_time] in
        let tuples := zip CSV_FIELD_NAMES data_packet in
        mret (Some (dict tuples))
    end
  end.

(** ** Minute Aggregator *)

(** [pd.DataFrame(list_of_data_points)] keeps one row per dict; a column
    exists when some dict has the key, and a dict without it leaves a
    missing cell (NaN).  [df[field]] on a column that does not exist raises
    [KeyError]. *)
Definition column := list (option value).

Definition present (cell : option value) : bool :=
  match cell with Some _ => true | None => false end.

Definition df_getitem (df : list record) (field : string) : outcome column :=
  let col := map (dict_get field) df in
  if existsb present col then Ok col else Raise (KeyError field).

(** The doubles of a column whose cells are all doubles or missing (a
    float64 column; the missing cells are skipped like NaN), [None] for a
    column of another dtype. *)
Fixpoint floats_of (col : column) : option (list F) :=
  match col with
  | [] => Some []
  | None :: col' => floats_of col'
  | Some (VFloat x) :: col' => cons x <$> floats_of col'
  | Some _ :: col' => None
  end.

(** The reductions skip NaN ([skipna=True]) and give NaN when nothing is
    left. *)
Definition dropna (xs : list F) : list F :=
  List.filter (λ x, negb (F_isnan x)) xs.

Definition F_min2 (a b : F) : F := if F_leb a b then a else b.
Definition F_max2 (a b : F) : F := if F_leb a b then b else a.

Definition reduce_min (xs : list F) : F :=
  match dropna xs with
  | [] => F_nan
  | x :: rest => fold_left F_min2 rest x
  end.

Definition reduce_max (xs : list F) : F :=
  match dropna xs with
  | [] => F_nan
  | x :: rest => fold_left F_max2 rest x
  end.

Fixpoint insert_sorted (x : F) (l : list F) : list F :=
  match l with
  | [] => [x]
  | y :: l' => if F_leb x y then x :: l else y :: insert_sorted x l'
  end.

Definition sort (l : list F) : list F := fold_right insert_sorted [] l.

(** The middle of a sorted list: the middle element of an odd count, the
    mean of the two middle elements of an even count. *)
Definition middle (s : list F) : F :=
  let n := length s in
  if Nat.even n
  then F_mean2 (nth (n / 2 - 1)%nat s F_nan) (nth (n / 2)%nat s F_nan)
  else nth (n / 2)%nat s F_nan.

Definition reduce_median (xs : list F) : F :=
  match dropna xs with
  | [] => F_nan
  | l => middle (sort l)
  end.

Inductive reduction := Min | Max | Median.

(** What [Series.min()], [.max()] and [.median()] do on a column that is
    not float64 (texts, datetimes, mixed cells) is left to the library. *)
Variable object_reduce : reduction → column → outcome value.

Definition series_reduce (r : reduction) (col : column) : outcome value :=
  match floats_of col with
  | Some xs =>
    Ok (VFloat match r with
               | Min => reduce_min xs
               | Max => reduce_max xs
               | Median => reduce_median xs
               end)
  | None => object_reduce r col
  end.

(** [str(v)] *)
Definition py_str (v : value) : string :=
  match v with
  | VFloat x => F_str x
  | VStr s => s
  | VDateTime t => datetime_str t
  end.

(** [str(df[field].min())] and its siblings. *)
Definition aggregate (df : list record) (field : string) (r : reduction)
  : outcome value :=
  outcome_bind (df_getitem df field) (λ col,
    outcome_map (λ v, VStr (py_str v)) (series_reduce r col)).

(** Statements that update [aggregated_data] in place: a statement that
    raises leaves the dict as the statements before it made it. *)
Definition stmt := record → record * option exn.

Definition skip : stmt := λ d, (d, None).

Definition assign (key : string) (e : outcome value) : stmt := λ d,
  match e with
  | Ok v => (dict_set key v d, None)
  | Raise err => (d, Some err)
  end.

Definition seq (s1 s2 : stmt) : stmt := λ d,
  match s1 d with
  | (d', None) => s2 d'
  | (d', Some err) => (d', Some err)
  end.

Fixpoint for_each (fields : list string) (body : string → stmt) : stmt :=
  match fields with
  | [] => skip
  | field :: fields' => seq (body field) (for_each fields' body)
  end.

(** The body of the [for] loop, for one field. *)
Definition aggregate_field (df : list record) (field : string) : stmt :=
  if negb (String.eqb field "dateTime") then
    seq (assign (field +:+ "_min") (aggregate df field Min))
   (seq (assign (field +:+ "_max") (aggregate df field Max))
        (assign (field +:+ "_median") (aggregate df field Median)))
  else skip.

(** The [for] loop inside the [try]. *)
Definition aggregation_loop (df : list record) : stmt :=
  for_each CSV_FIELD_NAMES (aggregate_field df).

Definition data_aggregation (list_of_data_points : list record) : Py record :=
  let df := list_of_data_points in
  let '(aggregated_data, failure) := aggregation_loop df [] in
  match failure with
  | Some err => print (EvAggFailed list_of_data_points err)
  | None => mret ()
  end;;
  current_time ← now;
  mret (dict_set "dateTime" (VDateTime current_time) aggregated_data).

(** ** The one-minute sampling loop *)

(** One pass through the body of the inner [while True]. *)
Definition minute_iteration (minute_loop_start_time : Z)
  (data_from_last_minute : list record) : Py (control (list record)) :=
  data ← get_arduino_data;
  match data with
  | None => mret (Continue data_from_last_minute)
  | Some data =>
    let data_from_last_minute := data_from_last_minute ++ [data] in
    t ← now;
    if minute_over minute_loop_start_time t
    then print EvMinuteDone;; mret (Break data_from_last_minute)
    else sleep 1;; mret (Continue data_from_last_minute)
  end.

(** The loop, cut after [fuel] passes: [Some buffer] when it left through
    [break], [None] when it is still running. *)
Fixpoint minute_loop (fuel : nat) (minute_loop_start_time : Z)
  (data_from_last_minute : list record) : Py (option (list record)) :=
  match fuel with
  | O => mret None
  | S fuel' =>
    c ← minute_iteration minute_loop_start_time data_from_last_minute;
    match c with
    | Break data_from_last_minute => mret (Some data_from_last_minute)
    | Continue data_from_last_minute =>
      minute_loop fuel' minute_loop_start_time data_from_last_minute
    end
  end.

(** ** The flush branch and one pass of the main loop *)

Record loop_state := {
  data_from_last_hour : list record;
  hour_loop_start_time : Z
}.

(** [os.path.join(config_data["dataOutputBasePath"], file_name)], with the
    binding of [file_name] the chain left.  The arguments are evaluated from
    left to right, the subscript before the name, and the call comes last:
    it refuses a directory that is no text. *)
Definition join_output_path (config_data : gmap string pyval)
  (file_name : option string) : outcome string :=
  base ← config_item config_data "dataOutputBasePath";
  file_name ← read_name "file_name" file_name;
  match base with
  | PyStr base => mret (os_path_join base file_name)
  | _ => Raise TypeError
  end.

(** The same once [file_name] is bound. *)
Definition output_path_of (config_data : gmap string pyval) (file_name : string)
  : outcome string :=
  join_output_path config_data (Some file_name).

(** From the file name chain to [output_path = ...]: the path of the file
    of a flush made at [curr_time]. *)
Definition flush_output_path (config_data : gmap string pyval)
  (curr_time : string) : outcome string :=
  file_name ← bind_file_name config_data curr_time;
  join_output_path config_data file_name.

(** The time test after the aggregation and, when it holds, the flush. *)
Definition flush_check (config_data : gmap string pyval) (st : loop_state)
  : Py loop_state :=
  t ← now;
  if flush_due (hour_loop_start_time st) t then
    print EvFlushDue;;
    t ← now;
    let curr_time := strftime "%Y%m%d_%H_%M_%S" t in
    output_path ← lift (flush_output_path config_data curr_time);
    to_csv output_path (data_from_last_hour st);;
    print (EvWrote output_path);;
    t ← now;
    mret {| data_from_last_hour := []; hour_loop_start_time := t |}
  else mret st.

(** Part 5.2 of one pass of the outer loop, from [current_time = ...] on.
    The wait for serial input and the light-control call before it are not
    part of the file and are left out.  [None]: the sampling loop is still
    running after [fuel] passes. *)
Definition main_iteration (config_data : gmap string pyval) (fuel : nat)
  (st : loop_state) : Py (option loop_state) :=
  current_time ← now;
  print (EvCurrentTime current_time);;
  let data_from_last_minute := [] in
  minute_loop_start_time ← now;
  recording ← lift (config_item config_data "dataReadingAndSaving");
  if truthy recording then
    done ← minute_loop fuel minute_loop_start_time data_from_last_minute;
    match done with
    | None => mret None
    | Some data_from_last_minute =>
      aggregated_data ← data_aggregation data_from_last_minute;
      print EvAggregated;;
      st ← flush_check config_data
             {| data_from_last_hour := data_from_last_hour st ++ [aggregated_data];
                hour_loop_start_time := hour_loop_start_time st |};
      mret (Some st)
    end
  else
    print EvNotSaving;;
    sleep 3600;;
    mret (Some st).

End Model.

(** ** An instance of the doubles: exact rationals and NaN *)

Inductive qfloat :=
  | QNum (q : Q)
  | QNaN.

(** The leading decimal digits of [s]: their value after [acc], how many
    there are after [n], and the rest of [s]. *)
Fixpoint scan_digits (s : pystr) (acc : Z) (n : nat) : Z * nat * pystr :=
  match s with
  | c :: s' =>
    if in_range 48 57 c
    then scan_digits s' (acc * 10 + (Z.of_N c - 48)) (S n)
    else (acc, n, s)
  | [] => (acc, n, [])
  end.

Fixpoint pystr_eqb (s t : pystr) : bool :=
  match s, t with
  | [], [] => true
  | c :: s', d :: t' => (c =? d)%N && pystr_eqb s' t'
  | _, _ => false
  end.

(** [float()] on the plain decimal literals [[+-]digits[.digits]] (at least
    one digit) and on [nan]; everything else is refused.  CPython's
    [float()] accepts more (exponents, blanks around the literal,
    underscores, [inf]); on what is accepted here the value is the
    literal's. *)
Definition qfloat_of_str (s : pystr) : option qfloat :=
  if pystr_eqb s (lit "nan") then Some QNaN else
  let '(negative, s) :=
    match s with
    | c :: s' =>
      if (c =? 45)%N then (true, s')
      else if (c =? 43)%N then (false, s')
      else (false, s)
    | [] => (false, s)
    end in
  let '(int_part, n_int, s) := scan_digits s 0 0 in
  let '(frac_part, n_frac, s) :=
    match s with
    | c :: s' => if (c =? 46)%N then scan_digits s' 0 0 else (0, 0%nat, s)
    | [] => (0, 0%nat, s)
    end in
  match s with
  | [] =>
    if (n_int + n_frac =? 0)%nat then None
    else
      let scale := Pos.pow 10 (Pos.of_nat n_frac) in
      let scale := if (n_frac =? 0)%nat then 1%positive else scale in
      let num := int_part * Zpos scale + frac_part in
      Some (QNum (Qred ((if negative then - num else num) # scale)))
  | _ :: _ => None
  end.

Definition digit_char (d : Z) : ascii := ascii_of_N (48 + Z.to_N d).

(** The decimal digits of [r / d] after the point, at most [fuel] of them;
    a fraction in lowest terms over [2^a * 5^b] has [max a b] of them, which
    is less than the number of bits of its denominator. *)
Fixpoint frac_digits (fuel : nat) (r d : Z) : string :=
  match fuel with
  | O => ""
  | S fuel' =>
    if (r =? 0)%Z then ""
    else String (digit_char (r * 10 / d)) (frac_digits fuel' (r * 10 mod d) d)
  end.

Definition qfloat_str (x : qfloat) : string :=
  match x with
  | QNaN => "nan"
  | QNum q =>
    let n := Z.abs (Qnum q) in
    let d := Zpos (Qden q) in
    let frac := frac_digits (Pos.size_nat (Qden q)) (n mod d) d in
    (if (Qnum q <? 0)%Z then "-" else "")
      +:+ pretty (n / d) +:+ "."
      +:+ (if String.eqb frac "" then "0" else frac)
  end.

Definition qfloat_leb (a b : qfloat) : bool :=
  match a, b with
  | QNum p, QNum q => Qle_bool p q
  | _, _ => false
  end.

Definition qfloat_mean2 (a b : qfloat) : qfloat :=
  match a, b with
  | QNum p, QNum q => QNum (Qred ((p + q) / 2))
  | _, _ => QNaN
  end.

Definition QFloat : PyFloat := {|
  F := qfloat;
  py_float := qfloat_of_str;
  F_isnan := λ x, match x with QNaN => true | QNum _ => false end;
  F_nan := QNaN;
  F_leb := qfloat_leb;
  F_mean2 := qfloat_mean2;
  F_str := qfloat_str
|}.

(** A library instance to run the code with: a time is printed as its
    count of microseconds, and a path is joined with a slash. *)
Definition PlainLib : PyLib := {|
  strftime := λ _ t, pretty t;
  datetime_str := λ t, pretty t;
  os_path_join := λ base name, base +:+ "/" +:+ name
|}.

(** ** Environments to run the code in *)

(** A line as the device sends it: the text, then CR LF. *)
Definition line (text : string) : list byte :=
  list_byte_of_string text ++ [x0d; x0a].

Definition second : Z := 1000000.

(** Every line is [text]; the clock advances by [step] seconds from one
    reading to the next; no write fails. *)
Definition env_of (text : string) (step : Z) : env :=
  {| clock := λ k, Z.of_nat k * step * second;
     serial_readline := λ _, Ok (line text);
     to_csv_error := λ _, None |}.

(** A device that sends the line of the specification's example, read every
    30 seconds. *)
Definition env_steady : env := env_of "50;300" 30.

(** A device that sends a line with a field that is not a number, with one
    hour between two readings of the clock. *)
Definition env_garbage : env := env_of "50;abc" 3600.

(** An environment whose clock always shows [t]. *)
Definition env_at (t : Z) : env :=
  {| clock := λ _, t;
     serial_readline := λ _, Ok (line "50;300");
     to_csv_error := λ _, None |}.

(** A pandas that refuses every reduction of a column that is not float64. *)
Definition strict_object_reduce {fm : PyFloat}
  : reduction → column → outcome value := λ _ _, Raise TypeError.

(** ** What the claims speak of *)

Section Notions.
Context {fm : PyFloat} {lib : PyLib}.

(** The schema fields other than the timestamp, in declared order. *)
Definition numeric_fields : list string :=
  List.filter (λ field, negb (String.eqb field "dateTime")) CSV_FIELD_NAMES.

(** The fields of [fields] declared before [x]. *)
Fixpoint fields_before (x : string) (fields : list string) : list string :=
  match fields with
  | [] => []
  | y :: fields' => if String.eqb y x then [] else y :: fields_before x fields'
  end.

(** Field [x] has the values [vs] across all records of the buffer. *)
Definition has_values (buf : list record) (x : string) (vs : list F) : Prop :=
  map (dict_get x) buf = map (λ v, Some (VFloat v)) vs.

(** The doubles of column [y] when [y] is a float64 column of the frame. *)
Definition float_column (buf : list record) (y : string) : option (list F) :=
  let col := map (dict_get y) buf in
  if existsb present col then floats_of col else None.

(** A double that is not NaN. *)
Definition number (x : F) : Prop := F_isnan x = false.

(** A statement that does not assign key [k] leaves it as it was, whether
    it raises or not. *)
Definition keeps (k : string) (s : stmt) : Prop :=
  ∀ d, dict_get k (s d).1 = dict_get k d.

(** The world after one call of the Sample Reader that printed [evs]: one
    reading of the clock and one of the serial line. *)
Definition after_sample (w : world) (evs : list event) : world :=
  {| clock_reads := S (clock_reads w); serial_reads := S (serial_reads w);
     stdout := stdout w ++ evs; slept := slept w; disk := disk w |}.

(** The world after one call of the aggregator that printed [evs]: one
    reading of the clock. *)
Definition after_aggregation (w : world) (evs : list event) : world :=
  {| clock_reads := S (clock_reads w); serial_reads := serial_reads w;
     stdout := stdout w ++ evs; slept := slept w; disk := disk w |}.

(** [m] is a minimum (a maximum) of [vs]. *)
Definition is_min (m : F) (vs : list F) : Prop :=
  In m vs ∧ ∀ v, In v vs → F_leb m v = true.

Definition is_max (m : F) (vs : list F) : Prop :=
  In m vs ∧ ∀ v, In v vs → F_leb v m = true.

Definition ascending : list F → Prop :=
  Sorted (λ a b, F_leb a b = true).

(** [m] is the median of [vs]: the middle of [vs] put in ascending order. *)
Definition is_median (m : F) (vs : list F) : Prop :=
  ∃ s, Permutation s vs ∧ ascending s ∧ m = middle s.

(** The three entries the aggregator writes for a float64 column [xs] of
    field [y]. *)
Definition entries_of (y : string) (xs : list F) : record :=
  [ (y +:+ "_min", VStr (F_str (reduce_min xs)));
    (y +:+ "_max", VStr (F_str (reduce_max xs)));
    (y +:+ "_median", VStr (F_str (reduce_median xs))) ].

(** The entries of the float64 columns among [ys], in order. *)
Definition entries_of_fields (buf : list record) (ys : list string) : record :=
  flat_map (λ y, match float_column buf y with
                 | Some xs => entries_of y xs
                 | None => []
                 end) ys.

(** A reading the Sample Reader rejects without raising: the read raised,
    or the line parsed to a wrong count of values, or a part of a decodable
    line was not a number. *)
Definition rejected (o : outcome (list byte)) : Prop :=
  match o with
  | Raise _ => True
  | Ok raw =>
    match parse_try raw with
    | (_, Ok vs) => length vs ≠ (length CSV_FIELD_NAMES - 1)%nat
    | (Some _, Raise _) => True
    | (None, Raise _) => False
    end
  end.

End Notions.

(** The three mode suffixes of a file name. *)
Inductive mode :=
  | ManuallySet
  | StableDate (stable_date : pyval)
  | DaysOffset (days_offset : Z).

Definition suffix_of (m : mode) : string :=
  match m with
  | ManuallySet => "_manually_set.csv"
  | StableDate d => "_stable_date_" +:+ str_of d +:+ ".csv"
  | DaysOffset n => "_Days_offset_" +:+ pretty n +:+ ".csv"
  end.

(** The mode by priority, each value read with 0 for an absent key: manual
    when sunrise and sunset are both not [None]; else stable date when that
    value is not [None]; else days offset when that value is an int. *)
Definition priority_mode (config_data : gmap string pyval) : option mode :=
  let sunrise := config_get config_data "sunrise" (PyInt 0) in
  let sunset := config_get config_data "sunset" (PyInt 0) in
  let stable_date := config_get config_data "stable_date" (PyInt 0) in
  let days_offset := config_get config_data "days_offset" (PyInt 0) in
  match sunrise, sunset with
  | PyNone, _ | _, PyNone =>
    match stable_date with
    | PyNone =>
      match days_offset with
      | PyInt n => Some (DaysOffset n)
      | _ => None
      end
    | d => Some (StableDate d)
    end
  | _, _ => Some ManuallySet
  end.

(** Configurations of the examples. *)
Definition cage (entries : list (string * pyval)) : gmap string pyval :=
  list_to_map (entries ++ [("cage_id", PyInt 7); ("bird_name", PyStr "zebra");
                            ("dataOutputBasePath", PyStr "/data")]).

Definition config_zero : gmap string pyval :=
  cage [("sunrise", PyInt 0); ("sunset", PyInt 0);
        ("stable_date", PyStr "2024-05-01"); ("days_offset", PyInt 4)].

Definition config_offset_only : gmap string pyval :=
  cage [("sunrise", PyNone); ("sunset", PyNone); ("days_offset", PyInt 5)].

Definition config_no_override : gmap string pyval :=
  cage [("stable_date", PyStr "2024-05-01"); ("days_offset", PyInt 4)].

(** The file name of mode [m]. *)
Definition named (config_data : gmap string pyval) (curr_time : string)
  (m : mode) : outcome string :=
  head ← file_name_head config_data curr_time;
  mret (head +:+ suffix_of m).

Section Statements.
Context {fm : PyFloat} {lib : PyLib}.
Variable E : env.
Variable object_reduce : reduction → column → outcome value.

(** Called on [buf] in world [w], the aggregator returns a record that maps
    [x_min], [x_max] and [x_median] to the text of a minimum, a maximum and
    the median of [vs], and [dateTime] to a reading of the clock made by
    the call itself. *)
Definition aggregated (buf : list record) (x : string) (vs : list F)
  (w : world) : Prop :=
  ∃ agg w' m M med,
    data_aggregation E object_reduce buf w = (Ok agg, w')
    ∧ dict_get (x +:+ "_min") agg = Some (VStr (F_str m)) ∧ is_min m vs
    ∧ dict_get (x +:+ "_max") agg = Some (VStr (F_str M)) ∧ is_max M vs
    ∧ dict_get (x +:+ "_median") agg = Some (VStr (F_str med))
    ∧ is_median med vs
    ∧ dict_get "dateTime" agg = Some (VDateTime (clock E (clock_reads w)))
    ∧ clock_reads w' = S (clock_reads w).

End Statements.

(** Inputs of the examples, over [QFloat]. *)
Definition undecodable : list byte := [xff].

Definition env_three_values : env := env_of "50;300;14.6" 1.

(** The double [q] as a value of a record. *)
Definition num (q : Q) : @value QFloat := @VFloat QFloat (QNum q).

Definition buffer_off_only : list (@record QFloat) :=
  [[("lights_off_time", num 1)]].

Definition buffer_on_only : list (@record QFloat) :=
  [[("lights_on_time", num 50)]; [("lights_on_time", num 70)]].

Definition buffer_two : list (@record QFloat) :=
  [[("lights_on_time", num 50); ("lights_off_time", num 300)];
   [("lights_on_time", num 40); ("lights_off_time", num 310)]].

(** The record read from the steady device when the clock shows [secs]
    seconds, and two passes of the sampling loop on that device. *)
Definition steady_sample (secs : Z) : @record QFloat :=
  [("dateTime", num 50); ("lights_on_time", num 300);
   ("lights_off_time", VStr (pretty (secs * second)))].

Definition steady_run : outcome (option (list (@record QFloat))) * @world QFloat :=
  minute_loop (lib := PlainLib) env_steady 2 0 [] world0.

Definition hour_state (batch : list (@record QFloat)) (start : Z)
  : @loop_state QFloat :=
  {| data_from_last_hour := batch; hour_loop_start_time := start |}.

(** ** Serial device discovery *)

Definition SERIAL_PORT_DATA_RATE : Z := 9600.

Definition POSSIBLE_DEVICE_PATHS : list string :=
  ["/dev/ttyACM0"; "/dev/ttyACM1";
   "/dev/cu.usbmodem2401"; "/dev/cu.usbmodem2301";
   "COM1"; "COM2"; "COM3"; "COM4"; "COM5"].

(** The object [serial.Serial(path, rate, timeout=1)] returns. *)
Record Serial := {
  port : string;
  baudrate : Z;
  timeout : Z
}.

(** How [get_serial_device] ends: it returns a device, it raises its own
    [Exception] (whose message lists the candidate paths), or an exception
    of [serial.Serial] other than [SerialException] leaves it. *)
Inductive discovery :=
  | Found (ser : Serial)
  | NotFound (tried : list string)
  | Failed (e : exn).

(** How the start of the script ends: the process exits with a status, or
    the main loop starts with the device and the location object. *)
Inductive startup (L : Type) :=
  | Exit (status : Z)
  | Started (serial_device : Serial) (wis_location_info : L).
Arguments Exit {L} status.
Arguments Started {L} serial_device wis_location_info.

Section Discovery.

(** What [serial.Serial(path, rate, timeout=t)] raises, if anything. *)
Variable serial_Serial : string → Z → Z → option exn.

(** The [for] loop of [get_serial_device] over [paths], and the [raise]
    after it: how it ends, and the paths on which [serial.Serial] was
    called, in order.  Only [SerialException] is caught. *)
Fixpoint try_paths (paths : list string) : discovery * list string :=
  match paths with
  | [] => (NotFound POSSIBLE_DEVICE_PATHS, [])
  | path :: paths' =>
    match serial_Serial path SERIAL_PORT_DATA_RATE 1 with
    | None =>
      (Found {| port := path; baudrate := SERIAL_PORT_DATA_RATE; timeout := 1 |},
       [path])
    | Some SerialException =>
      let '(d, called) := try_paths paths' in (d, path :: called)
    | Some e => (Failed e, [path])
    end
  end.

Definition get_serial_device : discovery * list string :=
  try_paths POSSIBLE_DEVICE_PATHS.

(** Opening [path] raises [SerialException]. *)
Definition refused (path : string) : Prop :=
  serial_Serial path SERIAL_PORT_DATA_RATE 1 = Some SerialException.

(** Parts 1 and 4 of the script.  [get_weizmann_location_object] is not a
    function of the file: what its call does is a parameter.  The second
    component tells whether it was called. *)
Definition start {L} (get_weizmann_location_object : outcome L)
  : startup L * bool :=
  match get_serial_device.1 with
  | Found serial_device =>
    match get_weizmann_location_object with
    | Ok wis_location_info => (Started serial_device wis_location_info, true)
    | Raise _ => (Exit 1, true)
    end
  | NotFound _ | Failed _ => (Exit 1, false)
  end.

End Discovery.

(** ** [FindArduinoPort] *)

(** An entry of [serial.tools.list_ports.comports()]. *)
Record ListPortInfo := {
  device : string;
  description : string
}.

(** [needle in hay] on [str]. *)
Fixpoint contains (needle hay : string) : bool :=
  String.prefix needle hay
  || match hay with
     | EmptyString => false
     | String _ hay' => contains needle hay'
     end.

(** The loop of [FindArduinoPort] over [ports]: the binding of the local
    [SerialPort] after it ([None]: never assigned), and the devices it
    printed. *)
Definition scan_ports (SearchFor : string) (ports : list ListPortInfo)
  : option string * list string :=
  fold_left (λ '(SerialPort, printed) port,
      if contains SearchFor (description port)
      then (Some (device port), printed ++ [device port])
      else (SerialPort, printed))
    ports (None, []).

(** [ports] is what [comports()] lists.  The [return] reads [SerialPort],
    which only a matching port binds. *)
Definition FindArduinoPort (ports : list ListPortInfo) (SearchFor : string)
  : outcome string * list string :=
  let '(SerialPort, printed) := scan_ports SearchFor ports in
  (match SerialPort with
   | Some SerialPort => Ok SerialPort
   | None => Raise (UnboundLocalError "SerialPort")
   end, printed).

(** The ports of [ports] whose description contains [SearchFor]. *)
Definition matching (SearchFor : string) (ports : list ListPortInfo)
  : list ListPortInfo :=
  List.filter (λ port, contains SearchFor (description port)) ports.

(** [needle] occurs in [hay]. *)
Definition occurs_in (needle hay : string) : Prop :=
  ∃ before after, hay = before +:+ needle +:+ after.

(** Example ports and an opener under which only the third candidate
    path opens. *)
Definition ports_example : list ListPortInfo :=
  [ {| device := "/dev/ttyS0"; description := "n/a" |};
    {| device := "/dev/ttyACM0"; description := "Arduino Uno" |};
    {| device := "/dev/ttyACM1"; description := "Arduino Mega 2560" |};
    {| device := "/dev/ttyUSB0"; description := "FT232R USB UART" |} ].

Definition only_mac (path : string) (rate timeout : Z) : option exn :=
  if String.eqb path "/dev/cu.usbmodem2401" then None else Some SerialException.

(** An opener under which no path opens: no device is plugged in. *)
Definition unplugged (path : string) (rate timeout : Z) : option exn :=
  Some SerialException.

(** ** Notions for the further properties *)

(** [sep.join(parts)] for a one-character separator. *)
Fixpoint join (sep : N) (parts : list pystr) : pystr :=
  match parts with
  | [] => []
  | [part] => part
  | part :: parts' => part ++ sep :: join sep parts'
  end.

(** A byte below 128. *)
Definition ascii_byte (b : byte) : Prop := (Byte.to_N b < 128)%N.

(** A line terminator byte: CR or LF. *)
Definition terminator (b : byte) : Prop := b = x0d ∨ b = x0a.

(** A serial line whose every read raises. *)
Definition env_broken : env :=
  {| clock := λ k, Z.of_nat k * second;
     serial_readline := λ _, Raise SerialException;
     to_csv_error := λ _, None |}.

Section MoreNotions.
Context {fm : PyFloat} {lib : PyLib}.

(** A record as the Sample Reader builds it: two numbers under the first
    two schema names and a formatted time under the third. *)
Definition sample_record (r : record) : Prop :=
  ∃ a b t, r = [("dateTime", VFloat a); ("lights_on_time", VFloat b);
                ("lights_off_time", VStr t)].

(** A reading the Sample Reader accepts: a line that parses to as many
    values as the schema has fields, the timestamp apart. *)
Definition accepted (o : outcome (list byte)) : Prop :=
  ∃ raw s vs, o = Ok raw ∧ parse_try raw = (s, Ok vs)
              ∧ length vs = (length CSV_FIELD_NAMES - 1)%nat.

(** The doubles the records hold under [field], in order. *)
Definition numbers_of (field : string) (buf : list record) : list F :=
  flat_map (λ r, match dict_get field r with
                 | Some (VFloat x) => [x]
                 | _ => []
                 end) buf.


End MoreNotions.

(** A configuration that lacks the subject identifiers, one in which no
    mode applies, and one with recording switched off. *)
Definition config_anonymous : gmap string pyval :=
  list_to_map [("sunrise", PyInt 6); ("sunset", PyInt 18);
               ("bird_name", PyStr "zebra")].

Definition config_no_mode : gmap string pyval :=
  cage [("sunrise", PyNone); ("sunset", PyNone); ("stable_date", PyNone);
        ("days_offset", PyBool true)].

Definition config_idle : gmap string pyval :=
  cage [("dataReadingAndSaving", PyBool false)].

Definition config_recording : gmap string pyval :=
  cage [("dataReadingAndSaving", PyBool true); ("sunrise", PyInt 6);
        ("sunset", PyInt 18)].

(** A configuration in which no mode applies and no output directory is
    given. *)
Definition config_bare : gmap string pyval :=
  list_to_map [("sunrise", PyNone); ("sunset", PyNone); ("stable_date", PyNone);
               ("days_offset", PyBool true)].

(** A disk that fills up while the second row of a file is written, with a
    clock that always shows 200 seconds, and the world a flush of
    [buffer_two] leaves there. *)
Definition env_disk_full : env :=
  {| clock := λ _, 200 * second;
     serial_readline := λ _, Ok (line "50;300");
     to_csv_error := λ _, Some (Interrupted OSError 1) |}.

Definition interrupted_world : @world QFloat :=
  {| clock_reads := 2; serial_reads := 0; stdout := [EvFlushDue]; slept := 0;
     disk := [("/data/cage_7_zebra_200000000_manually_set.csv",
               [[("lights_on_time", num 50); ("lights_off_time", num 300)]])] |}.

(** The world in which the sampling loop of a pass on the steady device
    leaves, the pass having started in [world0]. *)
Definition sampled_world : @world QFloat :=
  {| clock_reads := 4; serial_reads := 1;
     stdout := [EvCurrentTime 0; EvMinuteDone]; slept := 0; disk := [] |}.




(** * Proofs *)

Ltac unfold_py :=
  unfold mbind, Py_bind, mret, Py_ret, raise, attempt, lift, now, readline,
    print, sleep in *.

(** ** The Line Parser and the Sample Reader *)

Section Reader.
Context {fm : PyFloat} {lib : PyLib}.
Variable E : env.

Lemma parse_arduino_data_ok raw s vs w :
  parse_try raw = (s, Ok vs) →
  parse_arduino_data raw w = (Ok (Some vs), w).
Proof.
  intros H. unfold parse_arduino_data. rewrite H. reflexivity.
Qed.

Lemma parse_arduino_data_not_numeric raw s err w :
  parse_try raw = (Some s, Raise err) →
  parse_arduino_data raw w =
    (Ok None,
     {| clock_reads := clock_reads w; serial_reads := serial_reads w;
        stdout := stdout w ++ [EvParseFailed s err]; slept := slept w;
        disk := disk w |}).
Proof.
  intros H. unfold parse_arduino_data. rewrite H. reflexivity.
Qed.

Lemma parse_arduino_data_undecodable raw w :
  decode_utf8 raw = None →
  parse_arduino_data raw w = (Raise (UnboundLocalError "raw_data"), w).
Proof.
  intros H. unfold parse_arduino_data, parse_try. rewrite H. reflexivity.
Qed.

(** A decodable line never makes the parser raise, and what it returns is
    the whole list of parsed parts or nothing. *)
Lemma parse_arduino_data_decodable raw s w :
  decode_utf8 raw = Some s →
  ∃ w', parse_arduino_data raw w =
          (Ok (mapM py_float (split SEMICOLON (strip [CR; LF] s))), w').
Proof.
  intros H. unfold parse_arduino_data, parse_try. rewrite H.
  destruct (mapM py_float _); eexists; reflexivity.
Qed.

(** The Sample Reader, case by case. *)
Lemma get_arduino_data_cases w :
  get_arduino_data E w =
    match serial_readline E (serial_reads w) with
    | Raise err => (Ok None, after_sample w [EvReadFailed err])
    | Ok raw =>
      match parse_try raw with
      | (None, Raise _) =>
        (Raise (UnboundLocalError "raw_data"), after_sample w [])
      | (Some s, Raise err) =>
        (Ok None, after_sample w [EvParseFailed s err; EvIgnored raw])
      | (_, Ok vs) =>
        if (length vs =? length CSV_FIELD_NAMES - 1)%nat
        then (Ok (Some (dict (zip CSV_FIELD_NAMES
                ((VFloat <$> vs)
                 ++ [VStr (strftime "%Y_%m_%d_%H_%M_%S.%f"
                             (clock E (clock_reads w)))])))),
              after_sample w [])
        else (Ok None, after_sample w [EvIgnored raw])
      end
    end.
Proof.
  unfold get_arduino_data, parse_arduino_data, after_sample. unfold_py. simpl.
  destruct (serial_readline E (serial_reads w)) as [raw|err]; simpl;
    [|reflexivity].
  destruct (parse_try raw) as [[s|] [vs|err]]; simpl;
    rewrite ?app_nil_r, <- ?app_assoc; try reflexivity.
  - destruct (length vs =? 2)%nat; simpl; rewrite ?app_nil_r; reflexivity.
  - destruct (length vs =? 2)%nat; simpl; rewrite ?app_nil_r; reflexivity.
Qed.

(** A record the Sample Reader returns has the three schema keys in
    declared order, bound in that order to the two parsed numbers and then
    the formatted time. *)
Lemma get_arduino_data_record w r w' :
  get_arduino_data E w = (Ok (Some r), w') →
  ∃ a b, r = [("dateTime", VFloat a); ("lights_on_time", VFloat b);
              ("lights_off_time",
               VStr (strftime "%Y_%m_%d_%H_%M_%S.%f" (clock E (clock_reads w))))].
Proof.
  rewrite get_arduino_data_cases.
  destruct (serial_readline E (serial_reads w)) as [raw|err]; [|discriminate].
  destruct (parse_try raw) as [[s|] [vs|err]]; try discriminate.
  - destruct vs as [|a [|b [|c vs]]]; simpl; try discriminate.
    intros [= <- _]. exists a, b. reflexivity.
  - destruct vs as [|a [|b [|c vs]]]; simpl; try discriminate.
    intros [= <- _]. exists a, b. reflexivity.
Qed.

Lemma get_arduino_data_rejected w :
  rejected (serial_readline E (serial_reads w)) →
  ∃ evs, get_arduino_data E w = (Ok None, after_sample w evs).
Proof.
  rewrite get_arduino_data_cases. unfold rejected.
  destruct (serial_readline E (serial_reads w)) as [raw|err]; [|eauto].
  destruct (parse_try raw) as [[s|] [vs|err]]; intros H; try (by eauto).
  - apply Nat.eqb_neq in H. rewrite H. eauto.
  - apply Nat.eqb_neq in H. rewrite H. eauto.
Qed.

End Reader.

(** ** The one-minute sampling loop *)

Section Sampling.
Context {fm : PyFloat} {lib : PyLib}.
Variable E : env.

(** One pass of the loop, by what the Sample Reader did. *)
Lemma minute_iteration_cases start buf w :
  minute_iteration E start buf w =
    match get_arduino_data E w with
    | (Raise e, w1) => (Raise e, w1)
    | (Ok None, w1) => (Ok (Continue buf), w1)
    | (Ok (Some d), w1) =>
      if minute_over start (clock E (clock_reads w1))
      then (Ok (Break (buf ++ [d])), (print EvMinuteDone (now E w1).2).2)
      else (Ok (Continue (buf ++ [d])), (sleep 1 (now E w1).2).2)
    end.
Proof.
  unfold minute_iteration. unfold mbind at 1. unfold Py_bind.
  destruct (get_arduino_data E w) as [[[d|]|e] w1]; try reflexivity.
  unfold_py. simpl. destruct (minute_over start _); reflexivity.
Qed.

(** The loop leaves through [break] only right after an append. *)
Lemma minute_loop_exit fuel : ∀ start buf w out w',
  minute_loop E fuel start buf w = (Ok (Some out), w') →
  ∃ init d, out = init ++ [d].
Proof.
  induction fuel as [|fuel IH]; intros start buf w out w'; simpl.
  - discriminate.
  - unfold mbind at 1. unfold Py_bind. rewrite minute_iteration_cases.
    destruct (get_arduino_data E w) as [[[d|]|e] w1].
    + destruct (minute_over start _).
      * intros [= <- _]. eauto.
      * apply IH.
    + apply IH.
    + discriminate.
Qed.

(** While every reading is rejected the loop neither leaves nor raises,
    whatever the clock shows: a pass that rejects its reading goes back to
    the top without looking at the time. *)
Lemma minute_loop_all_rejected :
  (∀ k, rejected (serial_readline E k)) →
  ∀ fuel start buf w,
    ∃ w', minute_loop E fuel start buf w = (Ok None, w')
          ∧ clock_reads w' = (clock_reads w + fuel)%nat.
Proof.
  intros Hrej. induction fuel as [|fuel IH]; intros start buf w; simpl.
  - exists w. split; [reflexivity | lia].
  - unfold mbind at 1. unfold Py_bind. rewrite minute_iteration_cases.
    destruct (get_arduino_data_rejected E w (Hrej _)) as [evs ->].
    destruct (IH start buf (after_sample w evs)) as (w' & -> & Hc).
    exists w'. split; [reflexivity|]. rewrite Hc. simpl. lia.
Qed.

End Sampling.

(** ** Minimum, maximum and median of doubles *)

Section Reductions.
Context {fm : PyFloat} {fo : PyFloatOrder fm}.

Lemma F_leb_refl a : number a → F_leb a a = true.
Proof.
  intros Ha. destruct (F_leb a a) eqn:Hl; [reflexivity|].
  rewrite (F_leb_total a a Ha Ha Hl) in Hl. discriminate.
Qed.

Lemma dropna_numbers xs : Forall number xs → dropna xs = xs.
Proof.
  unfold dropna. induction 1 as [|x xs Hx _ IH]; simpl; [reflexivity|].
  rewrite Hx. simpl. f_equal. exact IH.
Qed.

Lemma fold_min_spec rest : ∀ x,
  Forall number (x :: rest) →
  let m := fold_left F_min2 rest x in
  In m (x :: rest) ∧ F_leb m x = true ∧ ∀ v, In v rest → F_leb m v = true.
Proof.
  induction rest as [|y rest IH]; intros x Hn; simpl.
  - inversion Hn; subst. split; [by left|]. split; [by apply F_leb_refl|].
    intros v [].
  - inversion Hn as [|? ? Hx Hr]; subst. inversion Hr as [|? ? Hy Hr']; subst.
    assert (Hx' : Forall number (F_min2 x y :: rest)).
    { constructor; [|done]. unfold F_min2. by destruct (F_leb x y). }
    destruct (IH _ Hx') as (Hin & Hle & Hall). clear IH.
    unfold F_min2 in *. destruct (F_leb x y) eqn:Hxy.
    + split; [destruct Hin as [<-|Hin]; [by left | by right; right]|].
      split; [done|]. intros v [<-|Hv]; [|by apply Hall].
      by eapply F_leb_trans.
    + pose proof (F_leb_total x y Hx Hy Hxy) as Hyx.
      split; [destruct Hin as [<-|Hin]; [by right; left | by right; right]|].
      split; [by eapply F_leb_trans|].
      intros v [<-|Hv]; [done | by apply Hall].
Qed.

Lemma fold_max_spec rest : ∀ x,
  Forall number (x :: rest) →
  let m := fold_left F_max2 rest x in
  In m (x :: rest) ∧ F_leb x m = true ∧ ∀ v, In v rest → F_leb v m = true.
Proof.
  induction rest as [|y rest IH]; intros x Hn; simpl.
  - inversion Hn; subst. split; [by left|]. split; [by apply F_leb_refl|].
    intros v [].
  - inversion Hn as [|? ? Hx Hr]; subst. inversion Hr as [|? ? Hy Hr']; subst.
    assert (Hx' : Forall number (F_max2 x y :: rest)).
    { constructor; [|done]. unfold F_max2. by destruct (F_leb x y). }
    destruct (IH _ Hx') as (Hin & Hle & Hall). clear IH.
    unfold F_max2 in *. destruct (F_leb x y) eqn:Hxy.
    + split; [destruct Hin as [<-|Hin]; [by right; left | by right; right]|].
      split; [by eapply F_leb_trans|].
      intros v [<-|Hv]; [done | by apply Hall].
    + pose proof (F_leb_total x y Hx Hy Hxy) as Hyx.
      split; [destruct Hin as [<-|Hin]; [by left | by right; right]|].
      split; [done|]. intros v [<-|Hv]; [|by apply Hall].
      by eapply F_leb_trans.
Qed.

Lemma reduce_min_is_min vs :
  vs ≠ [] → Forall number vs → is_min (reduce_min vs) vs.
Proof.
  intros Hne Hn. unfold reduce_min. rewrite (dropna_numbers _ Hn).
  destruct vs as [|x rest]; [done|].
  destruct (fold_min_spec rest x Hn) as (Hin & Hle & Hall).
  split; [done|]. intros v [<-|Hv]; auto.
Qed.

Lemma reduce_max_is_max vs :
  vs ≠ [] → Forall number vs → is_max (reduce_max vs) vs.
Proof.
  intros Hne Hn. unfold reduce_max. rewrite (dropna_numbers _ Hn).
  destruct vs as [|x rest]; [done|].
  destruct (fold_max_spec rest x Hn) as (Hin & Hle & Hall).
  split; [done|]. intros v [<-|Hv]; auto.
Qed.

Lemma insert_sorted_perm x l : Permutation (insert_sorted x l) (x :: l).
Proof.
  induction l as [|y l IH]; simpl; [reflexivity|].
  destruct (F_leb x y); [reflexivity|].
  rewrite IH. apply perm_swap.
Qed.

Lemma sort_perm l : Permutation (sort l) l.
Proof.
  induction l as [|x l IH]; simpl; [reflexivity|].
  rewrite insert_sorted_perm. by constructor.
Qed.

Lemma insert_sorted_ascending x l :
  number x → Forall number l → ascending l → ascending (insert_sorted x l).
Proof.
  intros Hx Hn Hs. induction Hs as [|y l Hs IH Hhd]; simpl.
  - repeat constructor.
  - inversion Hn as [|? ? Hy Hl]; subst.
    destruct (F_leb x y) eqn:Hxy.
    + constructor; [by constructor | by constructor].
    + pose proof (F_leb_total x y Hx Hy Hxy) as Hyx.
      constructor; [by apply IH|].
      destruct l as [|z l]; simpl; [by constructor|].
      destruct (F_leb x z); constructor; [done|].
      by inversion Hhd.
Qed.

Lemma sort_ascending l : Forall number l → ascending (sort l).
Proof.
  induction 1 as [|x l Hx Hl IH]; simpl; [constructor|].
  apply insert_sorted_ascending; [done| |done].
  eapply Permutation_Forall; [|exact Hl]. symmetry. apply sort_perm.
Qed.

Lemma reduce_median_is_median vs :
  vs ≠ [] → Forall number vs → is_median (reduce_median vs) vs.
Proof.
  intros Hne Hn. unfold reduce_median. rewrite (dropna_numbers _ Hn).
  exists (sort vs). split; [apply sort_perm|]. split; [by apply sort_ascending|].
  by destruct vs.
Qed.

End Reductions.

(** ** The Minute Aggregator *)

Section Aggregation.
Context {fm : PyFloat} {lib : PyLib}.
Variable E : env.
Variable object_reduce : reduction → column → outcome value.

Lemma dict_get_set k k' v (d : record) :
  dict_get k (dict_set k' v d) =
    if String.eqb k k' then Some v else dict_get k d.
Proof.
  induction d as [|[k0 v0] d IH]; simpl.
  - reflexivity.
  - destruct (String.eqb_spec k' k0) as [->|Hne]; simpl.
    + destruct (String.eqb k k0); reflexivity.
    + rewrite IH. destruct (String.eqb_spec k k0) as [->|Hne'].
      * destruct (String.eqb_spec k0 k') as [->|]; [done | reflexivity].
      * reflexivity.
Qed.

Lemma keeps_skip k : keeps k skip.
Proof. intros d. reflexivity. Qed.

Lemma keeps_assign k key e : String.eqb k key = false → keeps k (assign key e).
Proof.
  intros Hne d. unfold assign. destruct e; simpl; [|reflexivity].
  rewrite dict_get_set, Hne. reflexivity.
Qed.

Lemma keeps_seq k s1 s2 : keeps k s1 → keeps k s2 → keeps k (seq s1 s2).
Proof.
  intros H1 H2 d. unfold seq. specialize (H1 d).
  destruct (s1 d) as [d' [err|]]; simpl in *; [done|].
  rewrite H2. exact H1.
Qed.

Lemma float_column_getitem buf y xs :
  float_column buf y = Some xs →
  df_getitem buf y = Ok (map (dict_get y) buf)
  ∧ floats_of (map (dict_get y) buf) = Some xs.
Proof.
  unfold float_column, df_getitem.
  destruct (existsb present _); [done | discriminate].
Qed.

Lemma aggregate_float_column buf y xs r :
  float_column buf y = Some xs →
  aggregate object_reduce buf y r =
    Ok (VStr (F_str match r with
                    | Min => reduce_min xs
                    | Max => reduce_max xs
                    | Median => reduce_median xs
                    end)).
Proof.
  intros H. destruct (float_column_getitem _ _ _ H) as [Hcol Hfl].
  unfold aggregate, series_reduce. rewrite Hcol. simpl. rewrite Hfl.
  reflexivity.
Qed.

Lemma aggregate_absent buf y r :
  (∀ d, In d buf → dict_get y d = None) →
  aggregate object_reduce buf y r = Raise (KeyError y).
Proof.
  intros H. unfold aggregate, df_getitem.
  assert (Hex : existsb present (map (dict_get y) buf) = false).
  { induction buf as [|d buf IH]; simpl; [reflexivity|].
    rewrite (H d) by (by left). simpl. apply IH.
    intros d' Hd'. apply H. by right. }
  rewrite Hex. reflexivity.
Qed.

Lemma floats_of_values (vs : list F) :
  floats_of (map (λ v, Some (VFloat v)) vs) = Some vs.
Proof.
  induction vs as [|v vs IH]; simpl; [reflexivity|]. rewrite IH. reflexivity.
Qed.

Lemma has_values_float_column buf x vs :
  vs ≠ [] → has_values buf x vs → float_column buf x = Some vs.
Proof.
  unfold has_values, float_column. intros Hne ->. rewrite floats_of_values.
  destruct vs; [done | reflexivity].
Qed.

(** The aggregator returns, with the timestamp set from a reading of the
    clock of its own, whatever the loop inside the [try] did. *)
Lemma data_aggregation_returns buf w :
  ∃ agg evs,
    data_aggregation E object_reduce buf w =
      (Ok (dict_set "dateTime" (VDateTime (clock E (clock_reads w))) agg),
       after_aggregation w evs)
    ∧ (aggregation_loop object_reduce buf []).1 = agg
    ∧ evs = match (aggregation_loop object_reduce buf []).2 with
            | Some err => [EvAggFailed buf err]
            | None => []
            end.
Proof.
  unfold data_aggregation.
  destruct (aggregation_loop object_reduce buf []) as [agg [err|]].
  - exists agg, [EvAggFailed buf err]. unfold_py. done.
  - exists agg, []. unfold_py. unfold after_aggregation. simpl.
    rewrite app_nil_r. done.
Qed.

End Aggregation.

(** The body of the loop on a float64 column and on a missing column. *)
Section AggregationFields.
Context {fm : PyFloat} {lib : PyLib}.
Variable E : env.
Variable object_reduce : reduction → column → outcome value.

Lemma aggregate_field_float_column buf y xs d :
  String.eqb y "dateTime" = false →
  float_column buf y = Some xs →
  aggregate_field object_reduce buf y d =
    (dict_set (y +:+ "_median") (VStr (F_str (reduce_median xs)))
       (dict_set (y +:+ "_max") (VStr (F_str (reduce_max xs)))
          (dict_set (y +:+ "_min") (VStr (F_str (reduce_min xs))) d)), None).
Proof.
  intros Hy H. unfold aggregate_field. rewrite Hy. simpl.
  unfold seq, assign.
  rewrite !(aggregate_float_column _ _ _ _ _ H). reflexivity.
Qed.

Lemma aggregate_field_absent buf y d :
  String.eqb y "dateTime" = false →
  (∀ r, In r buf → dict_get y r = None) →
  aggregate_field object_reduce buf y d = (d, Some (KeyError y)).
Proof.
  intros Hy H. unfold aggregate_field. rewrite Hy. simpl.
  unfold seq, assign. rewrite !(aggregate_absent _ _ _ _ H). reflexivity.
Qed.

Lemma keeps_aggregate_field k buf y :
  String.eqb k (y +:+ "_min") = false →
  String.eqb k (y +:+ "_max") = false →
  String.eqb k (y +:+ "_median") = false →
  keeps k (aggregate_field object_reduce buf y).
Proof.
  intros H1 H2 H3. unfold aggregate_field.
  destruct (negb _); [|apply keeps_skip].
  repeat apply keeps_seq; by apply keeps_assign.
Qed.

End AggregationFields.

(** ** The instance [QFloat] *)

Lemma QFloat_order : PyFloatOrder QFloat.
Proof.
  split.
  - intros [p|] [q|] Ha Hb; try discriminate. simpl. unfold qfloat_leb.
    intros Hpq. apply Qle_bool_iff. apply Qlt_le_weak, Qnot_le_lt.
    intros Hle. apply Qle_bool_iff in Hle. congruence.
  - intros [p|] [q|] [r|]; simpl; try discriminate.
    rewrite !Qle_bool_iff. apply Qle_trans.
Qed.

(** ** The flush test *)

Lemma timedelta_seconds_range d : 0 ≤ timedelta_seconds d < 86400.
Proof. unfold timedelta_seconds. apply Z.mod_pos_bound. lia. Qed.

Lemma timedelta_seconds_within_a_day d :
  0 ≤ d < 86400 * second → timedelta_seconds d = d / second.
Proof.
  intros Hd. unfold timedelta_seconds, second in *.
  apply Z.mod_small. split.
  - apply Z.div_pos; lia.
  - apply Z.div_lt_upper_bound; lia.
Qed.

Lemma flush_due_seconds start t :
  flush_due start t = (180 <=? timedelta_seconds (t - start))%Z.
Proof.
  unfold flush_due, FILE_WRITE_DELAY_MINS, Qle_bool. simpl.
  destruct (Z.leb_spec 180 (timedelta_seconds (t - start)));
    [apply Z.leb_le | apply Z.leb_gt]; lia.
Qed.

(** * The claims *)

(** ** Line Parser and Sample Reader *)

(** C3 (the code departs from the claim).  A line that is not valid UTF-8
    makes the Line Parser raise: the handler of its [try] formats
    [raw_data], which the failed decoding never bound, so
    [UnboundLocalError] leaves [parse_arduino_data] instead of an absent
    result.  Here on the one-byte line [b'\xff'], in any world. *)
Theorem parse_arduino_data_raises_on_undecodable_line
  (fm : PyFloat) (w : world) :
  parse_arduino_data undecodable w = (Raise (UnboundLocalError "raw_data"), w).
Proof.
  apply parse_arduino_data_undecodable. reflexivity.
Qed.

(** C1 (the code departs from the claim).  On the line ["50;300"] the
    Sample Reader binds [dateTime] to 50.0, [lights_on_time] to 300.0 and
    [lights_off_time] to the formatted time: [CSV_FIELD_NAMES] lists
    [dateTime] first, while the time is appended last to the values. *)
Theorem sample_reader_binds_first_value_to_dateTime (lib : PyLib) :
  (get_arduino_data (fm := QFloat) env_steady world0).1 =
    Ok (Some [("dateTime", num 50); ("lights_on_time", num 300);
              ("lights_off_time",
               VStr (strftime "%Y_%m_%d_%H_%M_%S.%f" (clock env_steady 0)))]).
Proof.
  rewrite get_arduino_data_cases. reflexivity.
Qed.

(** C8.  A reading whose line parses to a count of values other than the
    schema's field count minus one is rejected: the Sample Reader returns
    [None], no record, after printing the diagnostic that carries the raw
    payload. *)
Theorem sample_reader_rejects_wrong_count
  (fm : PyFloat) (lib : PyLib) (E : env) (w : world)
  (raw : list byte) (s : option pystr) (vs : list F) :
  serial_readline E (serial_reads w) = Ok raw →
  parse_try raw = (s, Ok vs) →
  length vs ≠ (length CSV_FIELD_NAMES - 1)%nat →
  get_arduino_data E w = (Ok None, after_sample w [EvIgnored raw]).
Proof.
  intros Hread Hparse Hlen. rewrite get_arduino_data_cases, Hread, Hparse.
  apply Nat.eqb_neq in Hlen. rewrite Hlen. by destruct s.
Qed.

Lemma sample_reader_rejects_wrong_count_witness :
  get_arduino_data (fm := QFloat) (lib := PlainLib) env_three_values world0 =
    (Ok None, after_sample world0 [EvIgnored (line "50;300;14.6")]).
Proof.
  apply (sample_reader_rejects_wrong_count QFloat PlainLib env_three_values
           world0 (line "50;300;14.6")
           (parse_try (fm := QFloat) (line "50;300;14.6")).1
           [QNum 50; QNum 300; QNum (73 # 5)]).
  - reflexivity.
  - reflexivity.
  - simpl. lia.
Defined.

(** ** The sampling loop *)

(** A pass with recording on, by what the sampling loop does. *)
Lemma main_iteration_recording
  (fm : PyFloat) (lib : PyLib) (E : env)
  (object_reduce : reduction → column → outcome value)
  (cfg : gmap string pyval) (fuel : nat) (st : loop_state) (w : world)
  (recording : pyval) :
  cfg !! "dataReadingAndSaving" = Some recording →
  truthy recording = true →
  main_iteration E object_reduce cfg fuel st w =
    match minute_loop E fuel (clock E (S (clock_reads w))) []
            (now E (print (EvCurrentTime (clock E (clock_reads w)))
                      (now E w).2).2).2 with
    | (Ok (Some data_from_last_minute), w1) =>
      (aggregated_data ← data_aggregation E object_reduce data_from_last_minute;
       print EvAggregated;;
       st' ← flush_check E cfg
               {| data_from_last_hour :=
                    data_from_last_hour st ++ [aggregated_data];
                  hour_loop_start_time := hour_loop_start_time st |};
       mret (Some st')) w1
    | (Ok None, w1) => (Ok None, w1)
    | (Raise e, w1) => (Raise e, w1)
    end.
Proof.
  intros Hcfg Htruthy. unfold main_iteration, config_item. rewrite Hcfg.
  unfold mbind at 1. unfold Py_bind. unfold now at 1.
  unfold mbind at 1. unfold Py_bind. unfold print at 1.
  unfold mbind at 1. unfold Py_bind. unfold now at 1.
  unfold mbind at 1. unfold Py_bind. unfold lift at 1.
  rewrite Htruthy.
  unfold mbind at 1. unfold Py_bind.
  unfold now at 1 2. unfold print at 2. simpl.
  match goal with |- context [minute_loop E fuel ?s [] ?w0] =>
    destruct (minute_loop E fuel s [] w0) as [[[buf|]|e] w1]
  end; reflexivity.
Qed.

(** C9.  In a pass of the main loop with recording on, the Minute
    Aggregator is invoked only when the sampling loop, started on the empty
    buffer, has left through [break], and the buffer the pass hands to it
    is the one the loop left, which is not empty: it ends with the sample
    appended just before the [break].  While the loop runs, or when it
    raises, the pass does not reach the aggregator. *)
Theorem aggregator_input_nonempty
  (fm : PyFloat) (lib : PyLib) (E : env)
  (object_reduce : reduction → column → outcome value)
  (cfg : gmap string pyval) (fuel : nat) (st : loop_state) (w : world)
  (recording : pyval) :
  cfg !! "dataReadingAndSaving" = Some recording →
  truthy recording = true →
  match minute_loop E fuel (clock E (S (clock_reads w))) []
          (now E (print (EvCurrentTime (clock E (clock_reads w)))
                    (now E w).2).2).2 with
  | (Ok (Some data_from_last_minute), w1) =>
    data_from_last_minute ≠ []
    ∧ (∃ init data, data_from_last_minute = init ++ [data])
    ∧ main_iteration E object_reduce cfg fuel st w =
        (aggregated_data ← data_aggregation E object_reduce data_from_last_minute;
         print EvAggregated;;
         st' ← flush_check E cfg
                 {| data_from_last_hour :=
                      data_from_last_hour st ++ [aggregated_data];
                    hour_loop_start_time := hour_loop_start_time st |};
         mret (Some st')) w1
  | (Ok None, w1) =>
    main_iteration E object_reduce cfg fuel st w = (Ok None, w1)
  | (Raise e, w1) =>
    main_iteration E object_reduce cfg fuel st w = (Raise e, w1)
  end.
Proof.
  intros Hcfg Htruthy.
  rewrite (main_iteration_recording fm lib E object_reduce cfg fuel st w
             recording Hcfg Htruthy).
  destruct (minute_loop E fuel _ [] _) as [[[buf|]|e] w1] eqn:Hloop;
    [|reflexivity|reflexivity].
  destruct (minute_loop_exit E fuel _ [] _ buf w1 Hloop) as (init & d & ->).
  split; [by destruct init|]. split; [by eauto|]. reflexivity.
Qed.

Lemma aggregator_input_nonempty_witness :
  [steady_sample 60] ≠ []
  ∧ (∃ init data, [steady_sample 60] = init ++ [data])
  ∧ main_iteration (lib := PlainLib) env_steady strict_object_reduce
      config_recording 5 (hour_state buffer_two 0) world0 =
      (aggregated_data ← data_aggregation (lib := PlainLib) env_steady
                           strict_object_reduce [steady_sample 60];
       print EvAggregated;;
       st' ← flush_check (lib := PlainLib) env_steady config_recording
               (hour_state (buffer_two ++ [aggregated_data]) 0);
       mret (Some st')) sampled_world.
Proof.
  apply (aggregator_input_nonempty QFloat PlainLib env_steady
           strict_object_reduce config_recording 5 (hour_state buffer_two 0)
           world0 (PyBool true)).
  - vm_compute. reflexivity.
  - reflexivity.
Defined.

(** C4 (the code departs from the claim).  With a device whose every line
    has a field that is not a number, the sampling loop is still running
    after any number of passes, although one hour goes by between two
    readings of the clock: a rejected reading takes [continue], which skips
    the test of the elapsed time. *)
Theorem sampling_loop_never_leaves_on_rejected_reads (lib : PyLib) (fuel : nat) :
  ∃ w', minute_loop (fm := QFloat) env_garbage fuel 0 [] world0 = (Ok None, w')
        ∧ clock env_garbage (clock_reads w') = Z.of_nat fuel * 3600 * second.
Proof.
  destruct (minute_loop_all_rejected (fm := QFloat) env_garbage) with
    (fuel := fuel) (start := 0) (buf := @nil (@record QFloat)) (w := @world0 QFloat)
    as (w' & Hrun & Hclock).
  - intros k. exact I.
  - exists w'. split; [exact Hrun|]. rewrite Hclock. reflexivity.
Qed.

(** ** The file name of a flush *)

Lemma flush_file_name_mode cfg curr_time :
  flush_file_name cfg curr_time =
    match priority_mode cfg with
    | Some m => named cfg curr_time m
    | None => Raise (NameError "file_name")
    end.
Proof.
  unfold flush_file_name, bind_file_name, priority_mode, named.
  destruct (config_get cfg "sunrise" (PyInt 0)),
    (config_get cfg "sunset" (PyInt 0)),
    (config_get cfg "stable_date" (PyInt 0)),
    (config_get cfg "days_offset" (PyInt 0)); try reflexivity;
    simpl; destruct (file_name_head cfg curr_time); reflexivity.
Qed.

(** C2 (amended).  A flush that names a file gives it the suffix of exactly
    one mode, [priority_mode], chosen in priority order from the values
    read with 0 for an absent key: manual when sunrise and sunset are both
    not [None], zero included; else stable date, with that value, when it
    is not [None]; else days offset, with that value, when it is an int.
    When no mode applies no file name is bound.  An absent key counts as
    the value 0, so an absent stable date takes the stable-date suffix. *)
Theorem flush_file_name_by_priority
  (cfg : gmap string pyval) (curr_time : string) :
  let sunrise := config_get cfg "sunrise" (PyInt 0) in
  let sunset := config_get cfg "sunset" (PyInt 0) in
  let stable_date := config_get cfg "stable_date" (PyInt 0) in
  let days_offset := config_get cfg "days_offset" (PyInt 0) in
  flush_file_name cfg curr_time =
    match priority_mode cfg with
    | Some m => named cfg curr_time m
    | None => Raise (NameError "file_name")
    end
  ∧ (sunrise ≠ PyNone → sunset ≠ PyNone → priority_mode cfg = Some ManuallySet)
  ∧ (sunrise = PyNone ∨ sunset = PyNone → stable_date ≠ PyNone →
     priority_mode cfg = Some (StableDate stable_date))
  ∧ (sunrise = PyNone ∨ sunset = PyNone → stable_date = PyNone →
     ∀ n, days_offset = PyInt n → priority_mode cfg = Some (DaysOffset n))
  ∧ (sunrise = PyInt 0 → sunset = PyInt 0 →
     flush_file_name cfg curr_time = named cfg curr_time ManuallySet).
Proof.
  intros sunrise sunset stable_date days_offset.
  split; [apply flush_file_name_mode|].
  rewrite flush_file_name_mode. unfold priority_mode.
  fold sunrise sunset stable_date days_offset.
  repeat split.
  - intros H1 H2. by destruct sunrise, sunset.
  - intros [H|H] Hs; rewrite H; destruct stable_date; try done;
      by destruct sunrise.
  - intros [H|H] Hs n Hn; rewrite H, Hs, Hn; [done|]. by destruct sunrise.
  - intros -> ->. reflexivity.
Qed.

Lemma flush_file_name_by_priority_witness :
  flush_file_name config_zero "20240501_10_00_00" =
    Ok "cage_7_zebra_20240501_10_00_00_manually_set.csv".
Proof.
  rewrite (proj2 (proj2 (proj2 (proj2
    (flush_file_name_by_priority config_zero "20240501_10_00_00"))))).
  - vm_compute. reflexivity.
  - vm_compute. reflexivity.
  - vm_compute. reflexivity.
Defined.

(** The claim C2 as stated fails where sunrise and sunset are [None], no
    stable date is configured and a days offset is: the file gets the
    stable-date suffix, with 0 for the date, and not the days-offset one. *)
Lemma absent_stable_date_takes_stable_date_suffix :
  config_offset_only !! "stable_date" = None
  ∧ config_offset_only !! "days_offset" = Some (PyInt 5)
  ∧ flush_file_name config_offset_only "20240501_10_00_00" =
      Ok "cage_7_zebra_20240501_10_00_00_stable_date_0.csv".
Proof. vm_compute. done. Qed.

(** C10.  When the configuration has neither a [sunrise] nor a [sunset]
    key, both are read as 0, and the file name takes the manually-set
    suffix, whatever the stable date and the days offset are. *)
Theorem absent_overrides_select_manually_set
  (cfg : gmap string pyval) (curr_time head : string) :
  cfg !! "sunrise" = None →
  cfg !! "sunset" = None →
  file_name_head cfg curr_time = Ok head →
  config_get cfg "sunrise" (PyInt 0) = PyInt 0
  ∧ config_get cfg "sunset" (PyInt 0) = PyInt 0
  ∧ flush_file_name cfg curr_time = Ok (head +:+ "_manually_set.csv").
Proof.
  intros Hrise Hset Hhead. unfold flush_file_name, bind_file_name, config_get.
  rewrite Hrise, Hset, Hhead. done.
Qed.

Lemma absent_overrides_select_manually_set_witness :
  config_no_override !! "stable_date" = Some (PyStr "2024-05-01")
  ∧ config_no_override !! "days_offset" = Some (PyInt 4)
  ∧ flush_file_name config_no_override "20240501_10_00_00" =
      Ok "cage_7_zebra_20240501_10_00_00_manually_set.csv".
Proof.
  split; [vm_compute; reflexivity|]. split; [vm_compute; reflexivity|].
  apply (absent_overrides_select_manually_set config_no_override
           "20240501_10_00_00" "cage_7_zebra_20240501_10_00_00").
  - vm_compute. reflexivity.
  - vm_compute. reflexivity.
  - vm_compute. reflexivity.
Defined.

(** ** The flush test *)

(** C6 (the code departs from the claim).  The test reads [.seconds] of the
    elapsed time, its seconds below one day, and not the elapsed time: one
    day and 30 seconds after the batch started the flush delay of 3 minutes
    has long been reached, and the flush branch is not taken; nothing is
    written and the batch and its start stay as they were. *)
Theorem flush_not_triggered_a_day_later
  (lib : PyLib) (cfg : gmap string pyval) (batch : list (@record QFloat)) :
  let late := (86400 + 30) * second in
  (FILE_WRITE_DELAY_MINS * 60 * second ≤ late - 0)%Z
  ∧ flush_due 0 late = false
  ∧ (flush_check (env_at late) cfg (hour_state batch 0) world0).1
      = Ok (hour_state batch 0)
  ∧ disk (flush_check (env_at late) cfg (hour_state batch 0) world0).2 = [].
Proof.
  intros late. split; [vm_compute; discriminate|]. done.
Qed.

(** ** The Minute Aggregator *)

(** C7.  When a field is absent from every record of a batch whose other
    fields are float64 columns, the aggregator does not raise: it prints the
    whole batch and the [KeyError], and returns the aggregates of the fields
    declared before the absent one, which are those that succeeded, followed
    by the timestamp it reads from the clock. *)
Theorem aggregation_failure_is_best_effort
  (fm : PyFloat) (lib : PyLib) (E : env)
  (object_reduce : reduction → column → outcome value)
  (buf : list record) (x : string) (w : world) :
  In x numeric_fields →
  (∀ d, In d buf → dict_get x d = None) →
  (∀ y, In y numeric_fields → y ≠ x → is_Some (float_column buf y)) →
  data_aggregation E object_reduce buf w =
    (Ok (entries_of_fields buf (fields_before x numeric_fields)
         ++ [("dateTime", VDateTime (clock E (clock_reads w)))]),
     after_aggregation w [EvAggFailed buf (KeyError x)]).
Proof.
  intros Hx Habs Hothers.
  assert (Hloop : aggregation_loop object_reduce buf [] =
            (entries_of_fields buf (fields_before x numeric_fields),
             Some (KeyError x))).
  { unfold aggregation_loop, CSV_FIELD_NAMES, for_each, seq.
    change (aggregate_field object_reduce buf "dateTime" []) with
      (@pair record (option exn) [] None).
    destruct Hx as [<-|[<-|[]]]; cbv iota beta.
    - rewrite aggregate_field_absent by done. reflexivity.
    - destruct (Hothers "lights_on_time") as [xs Hxs]; [by left | done |].
      rewrite (aggregate_field_float_column _ _ _ xs) by done.
      rewrite aggregate_field_absent by done.
      unfold entries_of_fields. simpl. rewrite Hxs. reflexivity. }
  destruct (data_aggregation_returns E object_reduce buf w)
    as (agg & evs & -> & <- & ->).
  rewrite Hloop. simpl. f_equal. f_equal.
  destruct Hx as [<-|[<-|[]]]; [reflexivity|].
  unfold entries_of_fields. simpl.
  destruct (float_column buf "lights_on_time"); reflexivity.
Qed.

Lemma aggregation_failure_is_best_effort_witness :
  data_aggregation (lib := PlainLib) env_steady strict_object_reduce
    buffer_on_only world0 =
    (Ok [("lights_on_time_min", VStr "50.0");
         ("lights_on_time_max", VStr "70.0");
         ("lights_on_time_median", VStr "60.0");
         ("dateTime", VDateTime 0)],
     after_aggregation world0
       [EvAggFailed buffer_on_only (KeyError "lights_off_time")]).
Proof.
  etransitivity.
  - apply (aggregation_failure_is_best_effort QFloat PlainLib env_steady
             strict_object_reduce buffer_on_only "lights_off_time" world0).
    + right. left. reflexivity.
    + intros d [<-|[<-|[]]]; reflexivity.
    + intros y [<-|[<-|[]]] Hy; [|done]. eexists. reflexivity.
  - reflexivity.
Defined.

(** C5 (amended).  For a batch in which field [x] has the values [vs], not
    empty and none of them NaN, across all records, and in which every
    field declared before [x], the timestamp apart, is a float64 column,
    the record the aggregator returns maps [x_min], [x_max] and [x_median]
    to the text of a minimum, a maximum and the median of [vs], and
    [dateTime] to a reading of the clock that the aggregator makes itself:
    a [datetime] of its own, where a sample holds a formatted text. *)
Theorem aggregates_of_field
  (fm : PyFloat) (fo : PyFloatOrder fm) (lib : PyLib) (E : env)
  (object_reduce : reduction → column → outcome value)
  (buf : list record) (x : string) (vs : list F) (w : world) :
  In x numeric_fields →
  vs ≠ [] →
  Forall number vs →
  has_values buf x vs →
  Forall (λ y, is_Some (float_column buf y)) (fields_before x numeric_fields) →
  aggregated E object_reduce buf x vs w.
Proof.
  intros Hx Hne Hnum Hvals Hbefore. unfold aggregated.
  pose proof (has_values_float_column _ _ _ Hne Hvals) as Hcol.
  destruct (data_aggregation_returns E object_reduce buf w)
    as (agg & evs & -> & <- & _).
  eexists _, _, (reduce_min vs), (reduce_max vs), (reduce_median vs).
  split; [reflexivity|].
  rewrite !dict_get_set.
  assert (Hkeys :
    dict_get (x +:+ "_min") (aggregation_loop object_reduce buf []).1
      = Some (VStr (F_str (reduce_min vs)))
    ∧ dict_get (x +:+ "_max") (aggregation_loop object_reduce buf []).1
      = Some (VStr (F_str (reduce_max vs)))
    ∧ dict_get (x +:+ "_median") (aggregation_loop object_reduce buf []).1
      = Some (VStr (F_str (reduce_median vs)))).
  { destruct Hx as [<-|[<-|[]]].
    - assert (HL : aggregation_loop object_reduce buf [] =
                seq (aggregate_field object_reduce buf "lights_off_time") skip
                  (entries_of "lights_on_time" vs)).
      { unfold aggregation_loop, CSV_FIELD_NAMES, for_each. unfold seq at 1.
        change (aggregate_field object_reduce buf "dateTime" []) with
          (@pair record (option exn) [] None). cbv iota beta.
        unfold seq at 1.
        rewrite (aggregate_field_float_column _ _ _ vs) by done. reflexivity. }
      assert (Hk : ∀ sfx, In sfx ["_min"; "_max"; "_median"] →
                keeps ("lights_on_time" +:+ sfx)
                  (seq (aggregate_field object_reduce buf "lights_off_time")
                     skip)).
      { intros sfx Hs. apply keeps_seq; [|apply keeps_skip].
        apply keeps_aggregate_field;
          destruct Hs as [<-|[<-|[<-|[]]]]; reflexivity. }
      unfold keeps in Hk. rewrite HL, !Hk by (simpl; tauto). done.
    - simpl in Hbefore. inversion Hbefore as [|? ? [us Hus] _]; subst.
      assert (HL : aggregation_loop object_reduce buf [] =
                (entries_of "lights_on_time" us
                   ++ entries_of "lights_off_time" vs, None)).
      { unfold aggregation_loop, CSV_FIELD_NAMES, for_each, seq.
        change (aggregate_field object_reduce buf "dateTime" []) with
          (@pair record (option exn) [] None). cbv iota beta.
        rewrite (aggregate_field_float_column _ _ _ us) by done.
        rewrite (aggregate_field_float_column _ _ _ vs) by done. reflexivity. }
      rewrite HL. done. }
  destruct Hkeys as (-> & -> & ->).
  destruct Hx as [<-|[<-|[]]]; simpl;
    (split; [done|]); (split; [by apply reduce_min_is_min|]);
    (split; [done|]); (split; [by apply reduce_max_is_max|]);
    (split; [done|]); (split; [by apply reduce_median_is_median|]); done.
Qed.

Lemma aggregates_of_field_witness :
  aggregated (lib := PlainLib) env_steady strict_object_reduce buffer_two
    "lights_off_time" [QNum 300; QNum 310] world0.
Proof.
  apply (aggregates_of_field QFloat QFloat_order PlainLib env_steady
           strict_object_reduce buffer_two "lights_off_time"
           [QNum 300; QNum 310] world0).
  - right. left. reflexivity.
  - discriminate.
  - repeat constructor.
  - reflexivity.
  - repeat constructor. eexists. reflexivity.
Defined.

(** The claim C5 as stated fails on a batch whose records have the second
    field and not the first: [lights_off_time] has the value 1.0 in every
    record, and the returned record holds the timestamp only, since the
    [KeyError] of [lights_on_time] ends the loop before the second field. *)
Lemma later_field_not_aggregated :
  has_values buffer_off_only "lights_off_time" [QNum 1]
  ∧ data_aggregation (lib := PlainLib) env_steady strict_object_reduce
      buffer_off_only world0 =
      (Ok [("dateTime", VDateTime 0)],
       after_aggregation world0
         [EvAggFailed buffer_off_only (KeyError "lights_on_time")]).
Proof. split; reflexivity. Qed.

(** ** Further properties *)

(** Less than a day after the batch started, and with a clock that did not
    go back, the flush test holds exactly when the elapsed time has reached
    the flush delay. *)
Theorem flush_due_within_a_day (start t : Z) :
  (0 ≤ t - start < 86400 * second)%Z →
  flush_due start t = true ↔
  (FILE_WRITE_DELAY_MINS * 60 * second ≤ t - start)%Z.
Proof.
  intros Hd. rewrite flush_due_seconds, timedelta_seconds_within_a_day by done.
  unfold FILE_WRITE_DELAY_MINS, second in *. rewrite Z.leb_le. split.
  - intros H.
    pose proof (Z.mul_div_le (t - start) 1000000 ltac:(lia)). lia.
  - intros H. apply Z.div_le_lower_bound; lia.
Qed.

Lemma flush_due_within_a_day_witness :
  flush_due 0 (200 * second) = true.
Proof.
  apply (flush_due_within_a_day 0 (200 * second));
    unfold FILE_WRITE_DELAY_MINS, second; lia.
Defined.

(** Once the file name is bound, the path of the flush is the directory
    joined with it. *)
Lemma flush_output_path_bound (lib : PyLib) cfg curr_time file_name :
  flush_file_name cfg curr_time = Ok file_name →
  flush_output_path cfg curr_time = output_path_of cfg file_name.
Proof.
  unfold flush_file_name, flush_output_path, output_path_of.
  destruct (bind_file_name cfg curr_time) as [[name|]|e]; simpl;
    [|discriminate|discriminate].
  by intros [= ->].
Qed.

(** A flush that names its file and writes it leaves an empty batch whose
    start is the reading of the clock made after the write, whatever the
    number of records written. *)
Theorem flush_resets_batch
  (fm : PyFloat) (lib : PyLib) (E : env) (cfg : gmap string pyval)
  (st : loop_state) (w : world) (file_name output_path : string) :
  flush_due (hour_loop_start_time st) (clock E (clock_reads w)) = true →
  flush_file_name cfg
    (strftime "%Y%m%d_%H_%M_%S" (clock E (S (clock_reads w)))) = Ok file_name →
  output_path_of cfg file_name = Ok output_path →
  to_csv_error E output_path = None →
  ∃ w', flush_check E cfg st w =
          (Ok {| data_from_last_hour := [];
                 hour_loop_start_time := clock E (S (S (clock_reads w))) |}, w')
        ∧ disk w' = disk w ++ [(output_path, data_from_last_hour st)].
Proof.
  intros Hdue Hname Hpath Hcsv. unfold flush_check, to_csv. unfold_py. simpl.
  rewrite Hdue. simpl.
  rewrite (flush_output_path_bound lib _ _ _ Hname), Hpath. simpl.
  rewrite Hcsv. simpl. eexists. split; reflexivity.
Qed.

Lemma flush_resets_batch_witness :
  ∃ w', flush_check (lib := PlainLib) (env_at (200 * second)) config_zero
          (hour_state buffer_two 0) world0 =
          (Ok (hour_state [] (200 * second)), w')
        ∧ disk w' =
            [("/data/cage_7_zebra_200000000_manually_set.csv", buffer_two)].
Proof.
  apply (flush_resets_batch QFloat PlainLib (env_at (200 * second)) config_zero
           (hour_state buffer_two 0) world0
           "cage_7_zebra_200000000_manually_set.csv"
           "/data/cage_7_zebra_200000000_manually_set.csv");
    reflexivity.
Defined.

(** The aggregator never raises, and the record it returns always carries
    the timestamp. *)
Theorem data_aggregation_never_raises
  (fm : PyFloat) (lib : PyLib) (E : env)
  (object_reduce : reduction → column → outcome value)
  (buf : list record) (w : world) :
  ∃ agg w', data_aggregation E object_reduce buf w = (Ok agg, w')
            ∧ dict_get "dateTime" agg
                = Some (VDateTime (clock E (clock_reads w))).
Proof.
  destruct (data_aggregation_returns E object_reduce buf w)
    as (agg & evs & -> & _ & _).
  eexists _, _. split; [reflexivity|]. rewrite dict_get_set. reflexivity.
Qed.

(** On a line that decodes, the Line Parser does not raise, and it returns
    the floats of all the parts, in order, or nothing: the first part that
    is not a number makes the result absent. *)
Theorem parse_arduino_data_all_or_nothing
  (fm : PyFloat) (raw : list byte) (s : pystr) (w : world) :
  decode_utf8 raw = Some s →
  ∃ w', parse_arduino_data raw w =
          (Ok (mapM py_float (split SEMICOLON (strip [CR; LF] s))), w').
Proof. apply parse_arduino_data_decodable. Qed.

Lemma parse_arduino_data_all_or_nothing_witness :
  ∃ w', parse_arduino_data (fm := QFloat) (line "50;abc") world0 = (Ok None, w').
Proof.
  destruct (parse_arduino_data_all_or_nothing QFloat (line "50;abc")
              (lit "50;abc" ++ [CR; LF]) world0) as [w' Hw'].
  - reflexivity.
  - exists w'. rewrite Hw'. reflexivity.
Defined.

(** ** Serial device discovery *)

Section DiscoveryFacts.
Variable serial_Serial : string → Z → Z → option exn.

Lemma try_paths_found paths ser called :
  try_paths serial_Serial paths = (Found ser, called) ↔
  ∃ before after,
    paths = before ++ port ser :: after
    ∧ Forall (refused serial_Serial) before
    ∧ serial_Serial (port ser) SERIAL_PORT_DATA_RATE 1 = None
    ∧ called = before ++ [port ser]
    ∧ baudrate ser = SERIAL_PORT_DATA_RATE ∧ timeout ser = 1.
Proof.
  revert called. induction paths as [|path paths IH]; intros called; simpl.
  - split; [discriminate|]. intros (before & after & H & _). by destruct before.
  - destruct (serial_Serial path SERIAL_PORT_DATA_RATE 1) as [e|] eqn:Hopen.
    + assert (Hother : e ≠ SerialException →
                ((Failed e, [path]) = (Found ser, called) ↔
                 ∃ before after,
                   path :: paths = before ++ port ser :: after
                   ∧ Forall (refused serial_Serial) before
                   ∧ serial_Serial (port ser) SERIAL_PORT_DATA_RATE 1 = None
                   ∧ called = before ++ [port ser]
                   ∧ baudrate ser = SERIAL_PORT_DATA_RATE ∧ timeout ser = 1)).
      { intros He. split; [discriminate|].
        intros ([|p before] & after & Hp & Hb & Hs & _); simpl in Hp.
        - injection Hp as -> _. congruence.
        - injection Hp as -> _. inversion Hb as [|? ? Hr _]; subst.
          unfold refused in Hr. congruence. }
      destruct e; try (apply Hother; discriminate). clear Hother.
      destruct (try_paths serial_Serial paths) as [d called'] eqn:Hrest.
      split.
      * intros [= -> <-]. destruct (proj1 (IH called') eq_refl)
          as (before & after & -> & Hb & Hs & -> & Hr & Ht).
        exists (path :: before), after. repeat split; try done.
        by constructor.
      * intros ([|p before] & after & Hp & Hb & Hs & -> & Hr & Ht);
          simpl in Hp; injection Hp as -> Hp.
        { congruence. }
        inversion Hb; subst.
        assert (Hf : (d, called') = (Found ser, before ++ [port ser])).
        { apply IH. exists before, after. done. }
        by injection Hf as -> ->.
    + split.
      * intros [= <- <-]. exists [], paths. simpl. done.
      * intros ([|p before] & after & Hp & Hb & Hs & -> & Hr & Ht);
          simpl in Hp; injection Hp as -> Hp.
        { destruct ser; simpl in *; subst. reflexivity. }
        inversion Hb as [|? ? Hr' _]; subst. unfold refused in Hr'. congruence.
Qed.

Lemma try_paths_not_found paths tried called :
  try_paths serial_Serial paths = (NotFound tried, called) ↔
  Forall (refused serial_Serial) paths ∧ tried = POSSIBLE_DEVICE_PATHS ∧ called = paths.
Proof.
  revert called. induction paths as [|path paths IH]; intros called; simpl.
  - split; [by intros [= <- <-] | by intros (_ & -> & ->)].
  - destruct (serial_Serial path SERIAL_PORT_DATA_RATE 1) as [e|] eqn:Hopen.
    + assert (Hother : e ≠ SerialException →
                ((Failed e, [path]) = (NotFound tried, called) ↔
                 Forall (refused serial_Serial) (path :: paths)
                 ∧ tried = POSSIBLE_DEVICE_PATHS ∧ called = path :: paths)).
      { intros He. split; [discriminate|]. intros (Hb & _).
        inversion Hb as [|? ? Hr _]; subst. unfold refused in Hr. congruence. }
      destruct e; try (apply Hother; discriminate). clear Hother.
      destruct (try_paths serial_Serial paths) as [d called'] eqn:Hrest.
      split.
      * intros [= -> <-]. destruct (proj1 (IH called') eq_refl) as (Hb & -> & ->).
        repeat split; try done. by constructor.
      * intros (Hb & -> & ->). inversion Hb; subst.
        assert (Hf : (d, called') = (NotFound POSSIBLE_DEVICE_PATHS, paths))
          by (by apply IH).
        by injection Hf as -> ->.
    + split; [discriminate|]. intros (Hb & _).
      inversion Hb as [|? ? Hr _]; subst. unfold refused in Hr. congruence.
Qed.

End DiscoveryFacts.

(** ** [FindArduinoPort] *)

Lemma append_cons c s t : String c s +:+ t = String c (s +:+ t).
Proof. reflexivity. Qed.

Lemma append_empty t : "" +:+ t = t.
Proof. reflexivity. Qed.

Lemma prefix_occurs needle hay :
  String.prefix needle hay = true ↔ ∃ after, hay = needle +:+ after.
Proof.
  revert hay. induction needle as [|c needle IH]; intros hay.
  - split; [intros _; by exists hay | intros _; by destruct hay].
  - destruct hay as [|c' hay].
    + split; [discriminate|]. intros [after H].
      rewrite append_cons in H. discriminate.
    + cbn. destruct (Ascii.ascii_dec c c') as [<-|Hne].
      * rewrite IH. split; intros [after H]; exists after;
          rewrite append_cons in *; congruence.
      * split; [discriminate|]. intros [after H].
        rewrite append_cons in H. congruence.
Qed.

Lemma contains_occurs needle hay :
  contains needle hay = true ↔ occurs_in needle hay.
Proof.
  unfold occurs_in. induction hay as [|c hay IH]; cbn [contains].
  - rewrite orb_false_r, prefix_occurs. split.
    + intros [after H]. by exists "", after.
    + intros ([|c before] & after & H).
      * rewrite append_empty in H. by exists after.
      * rewrite append_cons in H. discriminate.
  - rewrite orb_true_iff, prefix_occurs, IH. split.
    + intros [[after H]|(before & after & H)].
      * by exists "", after.
      * exists (String c before), after. rewrite append_cons. by rewrite H.
    + intros ([|c' before] & after & H).
      * left. rewrite append_empty in H. by exists after.
      * right. exists before, after. rewrite append_cons in H. congruence.
Qed.

Lemma scan_ports_snoc SearchFor ports port :
  scan_ports SearchFor (ports ++ [port]) =
    if contains SearchFor (description port)
    then (Some (device port), (scan_ports SearchFor ports).2 ++ [device port])
    else scan_ports SearchFor ports.
Proof.
  unfold scan_ports. rewrite fold_left_app. simpl.
  destruct (fold_left _ ports (None, [])) as [sp pr]. reflexivity.
Qed.

Lemma scan_ports_matching SearchFor ports :
  scan_ports SearchFor ports =
    (device <$> last (matching SearchFor ports),
     device <$> matching SearchFor ports).
Proof.
  induction ports as [|port ports IH] using rev_ind; [reflexivity|].
  rewrite scan_ports_snoc, IH. unfold matching.
  rewrite List.filter_app. simpl.
  destruct (contains SearchFor (description port)); simpl.
  - rewrite last_snoc, fmap_app. reflexivity.
  - rewrite !app_nil_r. reflexivity.
Qed.

Lemma last_filter {A} (f : A → bool) (l : list A) (p : A) :
  last (List.filter f l) = Some p ↔
  ∃ before after,
    l = before ++ p :: after ∧ f p = true ∧ Forall (λ q, f q = false) after.
Proof.
  induction l as [|x l IH] using rev_ind.
  - split; [discriminate|]. intros (before & after & H & _). by destruct before.
  - rewrite List.filter_app. simpl. destruct (f x) eqn:Hx.
    + rewrite last_snoc. split.
      * intros [= <-]. exists l, []. done.
      * intros (before & after & H & Hp & Hafter).
        destruct after as [|y after _] using rev_ind.
        { apply app_inj_tail in H as [_ ->]. reflexivity. }
        rewrite app_comm_cons, app_assoc in H.
        apply app_inj_tail in H as [_ ->].
        apply Forall_app in Hafter as [_ Hy]. inversion Hy; congruence.
    + rewrite app_nil_r, IH. split.
      * intros (before & after & -> & Hp & Hafter).
        exists before, (after ++ [x]). rewrite <- app_assoc. split; [done|].
        split; [done|]. apply Forall_app. split; [done|]. by constructor.
      * intros (before & after & H & Hp & Hafter).
        destruct after as [|y after _] using rev_ind.
        { apply app_inj_tail in H as [_ ->]. congruence. }
        rewrite app_comm_cons, app_assoc in H.
        apply app_inj_tail in H as [-> ->].
        apply Forall_app in Hafter as [Hafter _]. by exists before, after.
Qed.

(** * Further properties of the code *)

(** ** Device discovery *)

(** [get_serial_device] returns the first candidate path that opens, in the
    order of [POSSIBLE_DEVICE_PATHS], opened at 9600 baud with a one-second
    read timeout: every path before it raised [SerialException], and no path
    after it is tried. *)
Theorem get_serial_device_first_that_opens
  (serial_Serial : string → Z → Z → option exn)
  (ser : Serial) (called : list string) :
  get_serial_device serial_Serial = (Found ser, called) ↔
  ∃ before after,
    POSSIBLE_DEVICE_PATHS = before ++ port ser :: after
    ∧ Forall (refused serial_Serial) before
    ∧ serial_Serial (port ser) SERIAL_PORT_DATA_RATE 1 = None
    ∧ called = before ++ [port ser]
    ∧ baudrate ser = 9600 ∧ timeout ser = 1.
Proof. apply try_paths_found. Qed.

Lemma get_serial_device_first_that_opens_witness :
  get_serial_device only_mac =
    (Found {| port := "/dev/cu.usbmodem2401"; baudrate := 9600; timeout := 1 |},
     ["/dev/ttyACM0"; "/dev/ttyACM1"; "/dev/cu.usbmodem2401"]).
Proof.
  apply (proj2 (get_serial_device_first_that_opens only_mac _ _)).
  exists ["/dev/ttyACM0"; "/dev/ttyACM1"],
    ["/dev/cu.usbmodem2301"; "COM1"; "COM2"; "COM3"; "COM4"; "COM5"].
  repeat split; repeat constructor.
Defined.

(** [get_serial_device] raises its own exception, whose message lists the
    candidate paths, exactly when every candidate path raises
    [SerialException]; it has then tried them all, in order. *)
Theorem get_serial_device_raises_when_none_opens
  (serial_Serial : string → Z → Z → option exn)
  (tried called : list string) :
  get_serial_device serial_Serial = (NotFound tried, called) ↔
  Forall (refused serial_Serial) POSSIBLE_DEVICE_PATHS
  ∧ tried = POSSIBLE_DEVICE_PATHS ∧ called = POSSIBLE_DEVICE_PATHS.
Proof. apply try_paths_not_found. Qed.

Lemma get_serial_device_raises_when_none_opens_witness :
  get_serial_device unplugged =
    (NotFound POSSIBLE_DEVICE_PATHS, POSSIBLE_DEVICE_PATHS).
Proof.
  apply (proj2 (get_serial_device_raises_when_none_opens unplugged
                  POSSIBLE_DEVICE_PATHS POSSIBLE_DEVICE_PATHS)).
  split; [|done]. repeat constructor.
Defined.

(** The script reaches its main loop exactly when some candidate path opens
    after all the paths before it were refused and the location object is
    built; the device is then that first path.  Without a device the
    location object is never asked for. *)
Theorem start_reaches_main_loop
  (L : Type) (serial_Serial : string → Z → Z → option exn)
  (get_weizmann_location_object : outcome L) (ser : Serial) (wis : L) :
  ((start serial_Serial get_weizmann_location_object).1 = Started ser wis ↔
   (∃ before after,
      POSSIBLE_DEVICE_PATHS = before ++ port ser :: after
      ∧ Forall (refused serial_Serial) before
      ∧ serial_Serial (port ser) SERIAL_PORT_DATA_RATE 1 = None
      ∧ baudrate ser = 9600 ∧ timeout ser = 1)
   ∧ get_weizmann_location_object = Ok wis)
  ∧ ((∀ ser' wis', (start serial_Serial get_weizmann_location_object).1
                     ≠ Started ser' wis') →
     (start serial_Serial get_weizmann_location_object).1 = Exit 1)
  ∧ ((start serial_Serial get_weizmann_location_object).2 = true ↔
     ∃ ser', (get_serial_device serial_Serial).1 = Found ser').
Proof.
  unfold start.
  destruct (get_serial_device serial_Serial) as [d called] eqn:Hd. simpl.
  split; [|split].
  - split.
    + destruct d as [ser'| |]; try discriminate.
      destruct get_weizmann_location_object as [wis'|]; try discriminate.
      intros [= -> ->]. split; [|done].
      apply try_paths_found in Hd
        as (before & after & ? & ? & ? & ? & ? & ?).
      by exists before, after.
    + intros [(before & after & Hp & Hb & Hs & Hr & Ht) ->].
      assert (Hf : get_serial_device serial_Serial
                     = (Found ser, before ++ [port ser])).
      { apply try_paths_found. by exists before, after. }
      rewrite Hf in Hd. by injection Hd as <- <-.
  - destruct d as [ser'| |]; try done.
    destruct get_weizmann_location_object as [wis'|]; [|done].
    intros H. by destruct (H ser' wis').
  - destruct d as [ser'| |].
    + destruct get_weizmann_location_object; (split; [by eauto | done]).
    + split; [discriminate | by intros [? ?]].
    + split; [discriminate | by intros [? ?]].
Qed.

(** ** [FindArduinoPort] *)

(** [FindArduinoPort] returns the device of the last listed port whose
    description contains the search word, not of the first, after printing
    the device of every port that matches. *)
Theorem FindArduinoPort_returns_last_match
  (ports : list ListPortInfo) (SearchFor d : string) (printed : list string) :
  FindArduinoPort ports SearchFor = (Ok d, printed) ↔
  ∃ before p after,
    ports = before ++ p :: after
    ∧ occurs_in SearchFor (description p)
    ∧ Forall (λ q, ¬ occurs_in SearchFor (description q)) after
    ∧ d = device p
    ∧ printed = device <$> matching SearchFor ports.
Proof.
  unfold FindArduinoPort. rewrite scan_ports_matching.
  destruct (last (matching SearchFor ports)) as [p|] eqn:Hlast; simpl.
  - apply last_filter in Hlast as (before & after & Hports & Hp & Hafter).
    split.
    + intros [= <- <-]. exists before, p, after.
      split; [done|]. split; [by apply contains_occurs|]. split; [|done].
      eapply Forall_impl; [exact Hafter|]. simpl. intros q Hq Hocc.
      apply contains_occurs in Hocc. congruence.
    + intros (before' & p' & after' & Hports' & Hp' & Hafter' & -> & ->).
      assert (Hl : last (matching SearchFor ports) = Some p').
      { apply last_filter. exists before', after'.
        split; [done|]. split; [by apply contains_occurs|].
        eapply Forall_impl; [exact Hafter'|]. simpl. intros q Hq.
        destruct (contains SearchFor (description q)) eqn:Hc; [|done].
        by apply contains_occurs in Hc. }
      assert (Hl' : last (matching SearchFor ports) = Some p).
      { apply last_filter. by exists before, after. }
      rewrite Hl in Hl'. by injection Hl' as ->.
  - split; [discriminate|].
    intros (before & p & after & Hports & Hp & Hafter & _).
    assert (Hl : last (matching SearchFor ports) = Some p).
    { apply last_filter. exists before, after.
      split; [done|]. split; [by apply contains_occurs|].
      eapply Forall_impl; [exact Hafter|]. simpl. intros q Hq.
      destruct (contains SearchFor (description q)) eqn:Hc; [|done].
      by apply contains_occurs in Hc. }
    congruence.
Qed.

Lemma FindArduinoPort_returns_last_match_witness :
  FindArduinoPort ports_example "Arduino" =
    (Ok "/dev/ttyACM1", ["/dev/ttyACM0"; "/dev/ttyACM1"]).
Proof.
  apply (proj2 (FindArduinoPort_returns_last_match ports_example "Arduino"
                  "/dev/ttyACM1" ["/dev/ttyACM0"; "/dev/ttyACM1"])).
  exists [ {| device := "/dev/ttyS0"; description := "n/a" |};
           {| device := "/dev/ttyACM0"; description := "Arduino Uno" |} ],
    {| device := "/dev/ttyACM1"; description := "Arduino Mega 2560" |},
    [ {| device := "/dev/ttyUSB0"; description := "FT232R USB UART" |} ].
  split; [reflexivity|]. split; [by exists "", " Mega 2560"|].
  split; [|done]. repeat constructor. simpl. intros H.
  apply contains_occurs in H. discriminate.
Defined.

(** When no listed port has a description that contains the search word,
    and so when no port is listed at all, [FindArduinoPort] raises
    [UnboundLocalError]: its [return] reads a local that only a match
    binds.  It raises in no other case. *)
Theorem FindArduinoPort_raises_without_match
  (ports : list ListPortInfo) (SearchFor : string) :
  (FindArduinoPort ports SearchFor).1 = Raise (UnboundLocalError "SerialPort") ↔
  Forall (λ q, ¬ occurs_in SearchFor (description q)) ports.
Proof.
  unfold FindArduinoPort. rewrite scan_ports_matching. simpl.
  destruct (last (matching SearchFor ports)) as [p|] eqn:Hlast; simpl.
  - split; [discriminate|]. intros Hall.
    apply last_filter in Hlast as (before & after & -> & Hp & _).
    apply Forall_app in Hall as [_ Hall]. inversion Hall as [|? ? Hn _]; subst.
    destruct Hn. by apply contains_occurs.
  - split; [|done]. intros _. apply last_None in Hlast.
    apply List.Forall_forall. intros q Hq Hocc.
    apply contains_occurs in Hocc.
    assert (Hin : In q (matching SearchFor ports))
      by (apply List.filter_In; split; done).
    rewrite Hlast in Hin. destruct Hin.
Qed.

Lemma FindArduinoPort_raises_without_match_witness :
  (FindArduinoPort ports_example "Nano").1 = Raise (UnboundLocalError "SerialPort").
Proof.
  apply (proj2 (FindArduinoPort_raises_without_match ports_example "Nano")).
  repeat constructor; intros H; apply contains_occurs in H; discriminate.
Defined.

(** ** The Line Parser on text *)

Lemma utf8_decode_ascii bs :
  Forall (λ b, (b < 128)%N) bs → utf8_decode bs = Some bs.
Proof.
  induction 1 as [|b bs Hb _ IH]; [reflexivity|].
  simpl. apply N.ltb_lt in Hb. rewrite Hb, IH. reflexivity.
Qed.

Lemma decode_utf8_ascii raw :
  Forall ascii_byte raw → decode_utf8 raw = Some (map Byte.to_N raw).
Proof.
  intros H. unfold decode_utf8. apply utf8_decode_ascii.
  induction H; constructor; done.
Qed.

Lemma lstrip_all chars t s :
  Forall (λ c, mem c chars = true) t → lstrip chars (t ++ s) = lstrip chars s.
Proof.
  induction 1 as [|c t Hc _ IH]; [reflexivity|]. simpl. by rewrite Hc.
Qed.

Lemma lstrip_app chars s t :
  lstrip chars s ≠ [] → lstrip chars (s ++ t) = lstrip chars s ++ t.
Proof.
  induction s as [|c s IH]; simpl; [done|].
  destruct (mem c chars); [exact IH | done].
Qed.

Lemma lstrip_nil_all chars s :
  lstrip chars s = [] → Forall (λ c, mem c chars = true) s.
Proof.
  induction s as [|c s IH]; simpl; [constructor|].
  destruct (mem c chars) eqn:Hc; [|discriminate]. intros H.
  constructor; [done | by apply IH].
Qed.

Lemma rstrip_all chars s t :
  Forall (λ c, mem c chars = true) t → rstrip chars (s ++ t) = rstrip chars s.
Proof.
  intros H. unfold rstrip. rewrite rev_app_distr, lstrip_all; [done|].
  by apply Forall_rev.
Qed.

(** Characters of [chars] after the text do not change what [strip] gives. *)
Lemma strip_trailing chars s t :
  Forall (λ c, mem c chars = true) t → strip chars (s ++ t) = strip chars s.
Proof.
  intros Ht. unfold strip.
  destruct (lstrip chars s) as [|c s'] eqn:Hs.
  - rewrite <- (app_nil_r (s ++ t)), lstrip_all; [reflexivity|].
    apply Forall_app. split; [by apply lstrip_nil_all | done].
  - rewrite lstrip_app by (by rewrite Hs). rewrite Hs. by apply rstrip_all.
Qed.

Lemma split_cons sep c s :
  split sep (c :: s) =
    if (c =? sep)%N then [] :: split sep s
    else match split sep s with
         | part :: parts => (c :: part) :: parts
         | [] => [[c]]
         end.
Proof. reflexivity. Qed.

Lemma split_not_nil sep s : split sep s ≠ [].
Proof.
  destruct s as [|c s]; simpl; [done|].
  destruct (c =? sep)%N; [done|]. by destruct (split sep s).
Qed.

(** Joining the parts of a split gives the text back, and no part holds
    the separator. *)
Lemma join_split sep s : join sep (split sep s) = s.
Proof.
  induction s as [|c s IH]; [reflexivity|]. rewrite split_cons.
  destruct (N.eqb_spec c sep) as [->|Hne].
  - pose proof (split_not_nil sep s).
    destruct (split sep s) as [|part parts] eqn:Hs; [done|].
    change (join sep ([] :: part :: parts))
      with ([] ++ sep :: join sep (part :: parts)).
    by rewrite IH.
  - pose proof (split_not_nil sep s).
    destruct (split sep s) as [|part parts] eqn:Hs; [done|].
    destruct parts as [|part' parts]; simpl in *; by rewrite <- IH.
Qed.

Lemma split_parts_no_sep sep s :
  Forall (λ part, ¬ In sep part) (split sep s).
Proof.
  induction s as [|c s IH].
  { constructor; [intros [] | constructor]. }
  rewrite split_cons.
  destruct (N.eqb_spec c sep) as [->|Hne].
  - constructor; [intros [] | done].
  - destruct (split sep s) as [|part parts].
    + constructor; [|constructor]. intros [?|[]]. congruence.
    + inversion IH as [|? ? Hp Hps]; subst. constructor; [|done].
      intros [?|?]; [congruence | done].
Qed.

Lemma split_no_sep sep s : ¬ In sep s → split sep s = [s].
Proof.
  induction s as [|c s IH]; [reflexivity|]. intros Hn. rewrite split_cons.
  destruct (N.eqb_spec c sep) as [->|Hne]; [destruct Hn; by left|].
  rewrite IH; [reflexivity|]. intros H. apply Hn. by right.
Qed.

Lemma split_app sep l rest :
  ¬ In sep l → split sep (l ++ sep :: rest) = l :: split sep rest.
Proof.
  induction l as [|c l IH]; intros Hn.
  - simpl. by rewrite N.eqb_refl.
  - simpl app. rewrite split_cons.
    destruct (N.eqb_spec c sep) as [->|Hne]; [destruct Hn; by left|].
    rewrite IH; [reflexivity|]. intros H. apply Hn. by right.
Qed.

Lemma split_two sep s l r :
  split sep s = [l; r] ↔ s = l ++ sep :: r ∧ ¬ In sep l ∧ ¬ In sep r.
Proof.
  split.
  - intros H. pose proof (join_split sep s) as Hj.
    pose proof (split_parts_no_sep sep s) as Hn. rewrite H in Hj, Hn.
    inversion Hn as [|? ? Hl Hn']; subst. inversion Hn'; subst. done.
  - intros (-> & Hl & Hr). rewrite split_app, split_no_sep; done.
Qed.

(** ** Line Parser and Sample Reader, further *)

(** A line of ASCII bytes always decodes, so on such a line the Line Parser
    never raises: it returns the floats of the parts of the stripped line,
    or nothing. *)
Theorem parse_arduino_data_never_raises_on_ascii
  (fm : PyFloat) (raw : list byte) (w : world) :
  Forall ascii_byte raw →
  ∃ w', parse_arduino_data raw w =
          (Ok (mapM py_float
                 (split SEMICOLON (strip [CR; LF] (map Byte.to_N raw)))), w').
Proof.
  intros H. apply parse_arduino_data_decodable. by apply decode_utf8_ascii.
Qed.

Lemma parse_arduino_data_never_raises_on_ascii_witness :
  ∃ w', parse_arduino_data (fm := QFloat) (line "50;300") world0 =
          (Ok (Some [QNum 50; QNum 300]), w').
Proof.
  destruct (parse_arduino_data_never_raises_on_ascii QFloat (line "50;300")
              world0) as [w' Hw'].
  - repeat constructor.
  - exists w'. rewrite Hw'. reflexivity.
Defined.

(** Line terminators after the text do not matter to the values parsed,
    however many CR and LF bytes there are, and none at all (a line cut by
    the read timeout) gives the same values. *)
Theorem parsed_values_ignore_trailing_terminators
  (fm : PyFloat) (raw term : list byte) :
  Forall ascii_byte raw →
  Forall terminator term →
  (parse_try (raw ++ term)).2 = (parse_try raw).2.
Proof.
  intros Hraw Hterm.
  assert (Hascii : Forall ascii_byte term).
  { eapply Forall_impl; [exact Hterm|]. by intros b [-> | ->]. }
  unfold parse_try.
  rewrite !decode_utf8_ascii by (try apply Forall_app; done).
  simpl. rewrite map_app, strip_trailing; [reflexivity|].
  clear -Hterm. induction Hterm as [|b term [-> | ->] _ IH];
    constructor; done.
Qed.

Lemma parsed_values_ignore_trailing_terminators_witness :
  (parse_try (fm := QFloat) (list_byte_of_string "50;300" ++ [x0d; x0a; x0a])).2
    = Ok [QNum 50; QNum 300].
Proof.
  rewrite (parsed_values_ignore_trailing_terminators QFloat
             (list_byte_of_string "50;300") [x0d; x0a; x0a]).
  - reflexivity.
  - repeat constructor.
  - repeat constructor; first [by left | by right].
Defined.

(** The Sample Reader returns a record exactly when the read returns a
    line that decodes and whose stripped text is two parts around a single
    semicolon, both accepted by [float()].  The record then binds the three
    schema names, in declared order, to the two numbers and to the time
    read before the line was read, and nothing is printed. *)
Theorem sample_reader_accepts
  (fm : PyFloat) (lib : PyLib) (E : env) (w w' : world) (r : record) :
  get_arduino_data E w = (Ok (Some r), w') ↔
  ∃ raw s left right a b,
    serial_readline E (serial_reads w) = Ok raw
    ∧ decode_utf8 raw = Some s
    ∧ strip [CR; LF] s = left ++ SEMICOLON :: right
    ∧ ¬ In SEMICOLON left ∧ ¬ In SEMICOLON right
    ∧ py_float left = Some a ∧ py_float right = Some b
    ∧ r = [("dateTime", VFloat a); ("lights_on_time", VFloat b);
           ("lights_off_time",
            VStr (strftime "%Y_%m_%d_%H_%M_%S.%f" (clock E (clock_reads w))))]
    ∧ w' = after_sample w [].
Proof.
  rewrite get_arduino_data_cases. split.
  - destruct (serial_readline E (serial_reads w)) as [raw|err]; [|discriminate].
    unfold parse_try.
    destruct (decode_utf8 raw) as [s|] eqn:Hdec; [|discriminate].
    destruct (mapM py_float (split SEMICOLON (strip [CR; LF] s)))
      as [vs|] eqn:Hvs; [|discriminate].
    destruct vs as [|a [|b [|c vs]]]; simpl; try discriminate.
    intros [= <- <-].
    destruct (split SEMICOLON (strip [CR; LF] s)) as [|left [|right [|x parts]]]
      eqn:Hsplit; simpl in Hvs; try discriminate.
    + destruct (py_float left); discriminate.
    + destruct (py_float left) as [a'|] eqn:Hl; [|discriminate].
      destruct (py_float right) as [b'|] eqn:Hr; [|discriminate].
      simpl in Hvs. injection Hvs as -> ->.
      apply split_two in Hsplit as (Hs & Hnl & Hnr).
      exists raw, s, left, right, a, b. done.
    + destruct (py_float left); [|discriminate].
      destruct (py_float right); [|discriminate].
      destruct (py_float x); [|discriminate].
      simpl in Hvs. destruct (mapM py_float parts); discriminate.
  - intros (raw & s & left & right & a & b & -> & Hdec & Hs & Hnl & Hnr
            & Hl & Hr & -> & ->).
    unfold parse_try. rewrite Hdec, Hs.
    rewrite (proj2 (split_two SEMICOLON _ left right)) by done.
    simpl. rewrite Hl, Hr. reflexivity.
Qed.

Lemma sample_reader_accepts_witness :
  get_arduino_data (fm := QFloat) (lib := PlainLib) env_steady world0 =
    (Ok (Some (steady_sample 0)), after_sample world0 []).
Proof.
  apply (proj2 (sample_reader_accepts QFloat PlainLib env_steady world0
                  (after_sample world0 []) (steady_sample 0))).
  exists (line "50;300"), (lit "50;300" ++ [CR; LF]), (lit "50"), (lit "300"),
    (QNum 50), (QNum 300).
  repeat split; try reflexivity.
  - intros H. repeat (destruct H as [H|H]; [discriminate|]). exact H.
  - intros H. repeat (destruct H as [H|H]; [discriminate|]). exact H.
Defined.

(** The Sample Reader raises in one case only: the read returned a line
    that is not valid UTF-8.  A read that raises, a part that is not a
    number and a wrong count of values are all rejected without an
    exception. *)
Theorem sample_reader_raises_only_on_undecodable_line
  (fm : PyFloat) (lib : PyLib) (E : env) (w w' : world) (e : exn) :
  get_arduino_data E w = (Raise e, w') ↔
  ∃ raw,
    serial_readline E (serial_reads w) = Ok raw
    ∧ decode_utf8 raw = None
    ∧ e = UnboundLocalError "raw_data"
    ∧ w' = after_sample w [].
Proof.
  rewrite get_arduino_data_cases. split.
  - destruct (serial_readline E (serial_reads w)) as [raw|err]; [|discriminate].
    unfold parse_try. destruct (decode_utf8 raw) as [s|] eqn:Hdec.
    + destruct (mapM py_float _) as [vs|]; [|discriminate].
      destruct (length vs =? _)%nat; discriminate.
    + intros [= <- <-]. by exists raw.
  - intros (raw & -> & Hdec & -> & ->). unfold parse_try. rewrite Hdec.
    reflexivity.
Qed.

(** Every call of the Sample Reader, whatever its outcome, reads the clock
    once and the serial line once, keeps what was printed before it, and
    neither sleeps nor writes a file. *)
Theorem sample_reader_effects
  (fm : PyFloat) (lib : PyLib) (E : env) (w : world) :
  ∃ evs, (get_arduino_data E w).2 = after_sample w evs.
Proof.
  rewrite get_arduino_data_cases.
  destruct (serial_readline E (serial_reads w)) as [raw|err]; [|by eexists].
  destruct (parse_try raw) as [[s|] [vs|err]]; try (by eexists);
    destruct (length vs =? _)%nat; by eexists.
Qed.

(** ** The sampling loop, further *)

Section SamplingMore.
Context {fm : PyFloat} {lib : PyLib}.
Variable E : env.

Lemma get_arduino_data_world w :
  ∃ evs, (get_arduino_data E w).2 = after_sample w evs.
Proof.
  rewrite get_arduino_data_cases.
  destruct (serial_readline E (serial_reads w)) as [raw|err]; [|by eexists].
  destruct (parse_try raw) as [[s|] [vs|err]]; try (by eexists);
    destruct (length vs =? _)%nat; by eexists.
Qed.

Lemma get_arduino_data_sample w r w' :
  get_arduino_data E w = (Ok (Some r), w') → sample_record r.
Proof.
  intros H. destruct (get_arduino_data_record E w r w' H) as (a & b & ->).
  by eexists _, _, _.
Qed.

Lemma get_arduino_data_accepted w :
  accepted (serial_readline E (serial_reads w)) →
  ∃ r, get_arduino_data E w = (Ok (Some r), after_sample w []).
Proof.
  intros (raw & s & vs & Hread & Hparse & Hlen).
  rewrite get_arduino_data_cases, Hread, Hparse.
  apply Nat.eqb_eq in Hlen. rewrite Hlen. destruct s; by eexists.
Qed.

(** What a run of the loop that leaves through [break] did, from any
    starting buffer. *)
Lemma minute_loop_exit_accounting fuel : ∀ start buf0 w buf w',
  minute_loop E fuel start buf0 w = (Ok (Some buf), w') →
  ∃ new passes,
    buf = buf0 ++ new ∧ new ≠ [] ∧ Forall sample_record new
    ∧ (length new ≤ passes ≤ fuel)%nat
    ∧ serial_reads w' = (serial_reads w + passes)%nat
    ∧ clock_reads w' = (clock_reads w + passes + length new)%nat
    ∧ slept w' = slept w + Z.of_nat (length new) - 1
    ∧ minute_over start (clock E (pred (clock_reads w'))) = true
    ∧ disk w' = disk w.
Proof.
  induction fuel as [|fuel IH]; intros start buf0 w buf w'; simpl.
  - discriminate.
  - unfold mbind at 1. unfold Py_bind. rewrite minute_iteration_cases.
    destruct (get_arduino_data_world w) as [evs Hw].
    destruct (get_arduino_data E w) as [[[d|]|e] w1] eqn:Hget;
      simpl in Hw; subst w1.
    + pose proof (get_arduino_data_sample _ _ _ Hget) as Hd.
      destruct (minute_over start _) eqn:Hover.
      * intros [= <- <-]. exists [d], 1%nat. simpl.
        repeat split; try done; try lia. by repeat constructor.
      * intros H. apply IH in H
          as (new & passes & -> & Hne & Hrec & Hp & Hsr & Hcr & Hsl & Hov
              & Hdisk).
        exists (d :: new), (S passes). rewrite <- app_assoc. simpl in *.
        repeat split; try done; try lia. by constructor.
    + intros H. apply IH in H
        as (new & passes & -> & Hne & Hrec & Hp & Hsr & Hcr & Hsl & Hov
            & Hdisk).
      exists new, (S passes). simpl in *. repeat split; try done; lia.
    + discriminate.
Qed.

Lemma minute_loop_accepted_exits n : ∀ start buf0 w,
  (∀ k, accepted (serial_readline E k)) →
  minute_over start (clock E (clock_reads w + 2 * n + 1)) = true →
  ∃ fuel buf w',
    (fuel ≤ S n)%nat
    ∧ minute_loop E fuel start buf0 w = (Ok (Some buf), w')
    ∧ (length buf ≤ length buf0 + S n)%nat.
Proof.
  induction n as [|n IH]; intros start buf0 w Hacc Hover.
  - exists 1%nat. simpl. unfold mbind at 1. unfold Py_bind.
    rewrite minute_iteration_cases.
    destruct (get_arduino_data_accepted w (Hacc _)) as [r ->]. simpl.
    replace (clock_reads w + 2 * 0 + 1)%nat with (S (clock_reads w)) in Hover
      by lia.
    rewrite Hover. eexists _, _. split; [lia|]. split; [reflexivity|].
    rewrite length_app. simpl. lia.
  - destruct (minute_over start (clock E (S (clock_reads w)))) eqn:Hfirst.
    + exists 1%nat. simpl. unfold mbind at 1. unfold Py_bind.
      rewrite minute_iteration_cases.
      destruct (get_arduino_data_accepted w (Hacc _)) as [r ->]. simpl.
      rewrite Hfirst. eexists _, _. split; [lia|]. split; [reflexivity|].
      rewrite length_app. simpl. lia.
    + destruct (get_arduino_data_accepted w (Hacc _)) as [r Hr].
      destruct (IH start (buf0 ++ [r])
                  (sleep 1 (now E (after_sample w [])).2).2 Hacc)
        as (fuel & buf & w' & Hfuel & Hrun & Hlen).
      { simpl. rewrite <- Hover. f_equal. f_equal. lia. }
      exists (S fuel), buf, w'. split; [lia|]. split.
      * simpl. unfold mbind at 1. unfold Py_bind.
        rewrite minute_iteration_cases, Hr. simpl. rewrite Hfirst. exact Hrun.
      * rewrite length_app in Hlen. simpl in Hlen. lia.
Qed.

End SamplingMore.

(** When the sampling loop leaves, its buffer holds only records of the
    Sample Reader and is not longer than the number of passes made; each
    pass read the serial line once and the clock once, and once more when
    it appended a record; the loop slept one second for each record but the
    last, and none for a rejected reading; the last reading of the clock
    passed the test of the minute; and no file was written. *)
Theorem sampling_loop_exit_accounting
  (fm : PyFloat) (lib : PyLib) (E : env) (fuel : nat) (start : Z)
  (w w' : world) (buf : list record) :
  minute_loop E fuel start [] w = (Ok (Some buf), w') →
  ∃ passes,
    Forall sample_record buf
    ∧ (length buf ≤ passes ≤ fuel)%nat
    ∧ serial_reads w' = (serial_reads w + passes)%nat
    ∧ clock_reads w' = (clock_reads w + passes + length buf)%nat
    ∧ slept w' = slept w + Z.of_nat (length buf) - 1
    ∧ minute_over start (clock E (pred (clock_reads w'))) = true
    ∧ disk w' = disk w.
Proof.
  intros H. apply minute_loop_exit_accounting in H
    as (new & passes & -> & Hne & Hrec & Hp & Hsr & Hcr & Hsl & Hov & Hdisk).
  exists passes. done.
Qed.

Lemma sampling_loop_exit_accounting_witness :
  ∃ passes,
    Forall sample_record [steady_sample 0; steady_sample 60]
    ∧ (2 ≤ passes ≤ 2)%nat
    ∧ serial_reads steady_run.2 = (0 + passes)%nat
    ∧ clock_reads steady_run.2 = (0 + passes + 2)%nat
    ∧ slept steady_run.2 = 0 + Z.of_nat 2 - 1
    ∧ minute_over 0 (clock env_steady (pred (clock_reads steady_run.2))) = true
    ∧ disk steady_run.2 = [].
Proof.
  apply (sampling_loop_exit_accounting QFloat PlainLib env_steady 2 0 world0
           steady_run.2 [steady_sample 0; steady_sample 60]).
  reflexivity.
Defined.

(** When every reading is accepted, the sampling loop leaves at the first
    pass whose reading of the clock passes the test of the minute: if that
    is pass [n + 1] at the latest, [n + 1] passes are enough and the buffer
    has at most [n + 1] records. *)
Theorem sampling_loop_leaves_on_accepted_reads
  (fm : PyFloat) (lib : PyLib) (E : env) (n : nat) (start : Z) (w : world) :
  (∀ k, accepted (serial_readline E k)) →
  minute_over start (clock E (clock_reads w + 2 * n + 1)) = true →
  ∃ fuel buf w',
    (fuel ≤ S n)%nat
    ∧ minute_loop E fuel start [] w = (Ok (Some buf), w')
    ∧ (length buf ≤ S n)%nat.
Proof.
  intros Hacc Hover.
  destruct (minute_loop_accepted_exits E n start [] w Hacc Hover)
    as (fuel & buf & w' & ? & ? & ?).
  by exists fuel, buf, w'.
Qed.

Lemma sampling_loop_leaves_on_accepted_reads_witness :
  ∃ fuel buf w',
    (fuel ≤ 2)%nat
    ∧ minute_loop (fm := QFloat) (lib := PlainLib) env_steady fuel 0 [] world0
        = (Ok (Some buf), w')
    ∧ (length buf ≤ 2)%nat.
Proof.
  apply (sampling_loop_leaves_on_accepted_reads QFloat PlainLib env_steady 1 0
           world0).
  - intros k. exists (line "50;300"), (Some (lit "50;300" ++ [CR; LF])),
      [QNum 50; QNum 300]. done.
  - reflexivity.
Defined.

(** ** The Minute Aggregator, further *)

Section AggregationMore.
Context {fm : PyFloat} {lib : PyLib}.
Variable E : env.
Variable object_reduce : reduction → column → outcome value.

Lemma aggregation_loop_after_first buf xs :
  float_column buf "lights_on_time" = Some xs →
  aggregation_loop object_reduce buf [] =
    seq (aggregate_field object_reduce buf "lights_off_time") skip
      (entries_of "lights_on_time" xs).
Proof.
  intros Hxs. unfold aggregation_loop, CSV_FIELD_NAMES, for_each.
  unfold seq at 1.
  change (aggregate_field object_reduce buf "dateTime" []) with
    (@pair record (option exn) [] None). cbv iota beta.
  unfold seq at 1.
  rewrite (aggregate_field_float_column _ _ _ xs) by done. reflexivity.
Qed.

Lemma first_field_kept buf sfx :
  In sfx ["_min"; "_max"; "_median"] →
  keeps ("lights_on_time" +:+ sfx)
    (seq (aggregate_field object_reduce buf "lights_off_time") skip).
Proof.
  intros Hs. apply keeps_seq; [|apply keeps_skip].
  apply keeps_aggregate_field; destruct Hs as [<-|[<-|[<-|[]]]]; reflexivity.
Qed.

Lemma sampled_columns (buf : list record) :
  Forall sample_record buf →
  floats_of (map (dict_get "lights_on_time") buf)
    = Some (numbers_of "lights_on_time" buf)
  ∧ length (numbers_of "lights_on_time" buf) = length buf
  ∧ (buf ≠ [] →
     float_column buf "lights_on_time" = Some (numbers_of "lights_on_time" buf)
     ∧ float_column buf "lights_off_time" = None).
Proof.
  induction 1 as [|r buf (a & b & t & ->) Hbuf (IHf & IHl & IH)].
  - done.
  - split; [|split].
    + simpl. rewrite IHf. reflexivity.
    + simpl. by rewrite IHl.
    + intros _. unfold float_column. simpl. rewrite IHf. done.
Qed.

End AggregationMore.

(** On a batch whose two numeric fields are float64 columns the aggregator
    prints nothing and returns exactly seven entries, in this order: the
    minimum, maximum and median of [lights_on_time], those of
    [lights_off_time], and the timestamp. *)
Theorem aggregation_of_complete_batch
  (fm : PyFloat) (lib : PyLib) (E : env)
  (object_reduce : reduction → column → outcome value)
  (buf : list record) (xs ys : list F) (w : world) :
  float_column buf "lights_on_time" = Some xs →
  float_column buf "lights_off_time" = Some ys →
  data_aggregation E object_reduce buf w =
    (Ok (entries_of "lights_on_time" xs ++ entries_of "lights_off_time" ys
         ++ [("dateTime", VDateTime (clock E (clock_reads w)))]),
     after_aggregation w []).
Proof.
  intros Hxs Hys.
  destruct (data_aggregation_returns E object_reduce buf w)
    as (agg & evs & -> & <- & ->).
  rewrite aggregation_loop_after_first with (xs := xs) by done.
  unfold seq. rewrite (aggregate_field_float_column _ _ _ ys) by done.
  reflexivity.
Qed.

Lemma aggregation_of_complete_batch_witness :
  data_aggregation (lib := PlainLib) env_steady strict_object_reduce buffer_two
    world0 =
    (Ok [("lights_on_time_min", VStr "40.0"); ("lights_on_time_max", VStr "50.0");
         ("lights_on_time_median", VStr "45.0");
         ("lights_off_time_min", VStr "300.0");
         ("lights_off_time_max", VStr "310.0");
         ("lights_off_time_median", VStr "305.0");
         ("dateTime", VDateTime 0)],
     after_aggregation world0 []).
Proof.
  etransitivity.
  - apply (aggregation_of_complete_batch QFloat PlainLib env_steady
             strict_object_reduce buffer_two [QNum 50; QNum 40]
             [QNum 300; QNum 310] world0); reflexivity.
  - reflexivity.
Defined.

(** On the empty list the aggregator does not raise: the frame has no
    column, so the first field fails with [KeyError], which is printed with
    the empty batch, and the record returned holds the timestamp alone. *)
Theorem aggregation_of_empty_batch
  (fm : PyFloat) (lib : PyLib) (E : env)
  (object_reduce : reduction → column → outcome value) (w : world) :
  data_aggregation E object_reduce [] w =
    (Ok [("dateTime", VDateTime (clock E (clock_reads w)))],
     after_aggregation w [EvAggFailed [] (KeyError "lights_on_time")]).
Proof. reflexivity. Qed.

(** The batches the main loop aggregates are those the sampling loop
    leaves.  On such a batch the aggregates of [lights_on_time] are those of
    the second number of every sampled line, one per record, and the
    [lights_off_time] column holds the formatted times, so that it is no
    float64 column and its aggregates are what pandas makes of texts. *)
Theorem aggregation_of_sampled_buffer
  (fm : PyFloat) (lib : PyLib) (E : env)
  (object_reduce : reduction → column → outcome value)
  (fuel : nat) (start : Z) (w0 w : world) (buf : list record) :
  minute_loop E fuel start [] w0 = (Ok (Some buf), w) →
  let seconds := numbers_of "lights_on_time" buf in
  ∃ agg evs,
    data_aggregation E object_reduce buf w = (Ok agg, after_aggregation w evs)
    ∧ length seconds = length buf
    ∧ dict_get "lights_on_time_min" agg = Some (VStr (F_str (reduce_min seconds)))
    ∧ dict_get "lights_on_time_max" agg = Some (VStr (F_str (reduce_max seconds)))
    ∧ dict_get "lights_on_time_median" agg
        = Some (VStr (F_str (reduce_median seconds)))
    ∧ float_column buf "lights_off_time" = None.
Proof.
  intros Hrun seconds.
  apply minute_loop_exit_accounting in Hrun
    as (new & passes & -> & Hne & Hrec & _).
  simpl in *.
  destruct (sampled_columns new Hrec) as (_ & Hlen & Hcols).
  destruct (Hcols Hne) as [Hon Hoff].
  destruct (data_aggregation_returns E object_reduce new w)
    as (agg & evs & -> & <- & _).
  exists (dict_set "dateTime" (VDateTime (clock E (clock_reads w)))
            (aggregation_loop object_reduce new []).1), evs.
  split; [reflexivity|]. split; [exact Hlen|].
  rewrite !dict_get_set. simpl.
  rewrite aggregation_loop_after_first with (xs := seconds) by done.
  pose proof (first_field_kept object_reduce new) as Hk. unfold keeps in Hk.
  rewrite (Hk "_min"), (Hk "_max"), (Hk "_median") by (simpl; tauto).
  done.
Qed.

Lemma aggregation_of_sampled_buffer_witness :
  ∃ agg evs,
    data_aggregation (lib := PlainLib) env_steady strict_object_reduce
      [steady_sample 0; steady_sample 60] steady_run.2
      = (Ok agg, after_aggregation steady_run.2 evs)
    ∧ length (numbers_of "lights_on_time" [steady_sample 0; steady_sample 60])
        = 2%nat
    ∧ dict_get "lights_on_time_min" agg
        = Some (VStr (F_str (reduce_min
             (numbers_of "lights_on_time" [steady_sample 0; steady_sample 60]))))
    ∧ dict_get "lights_on_time_max" agg
        = Some (VStr (F_str (reduce_max
             (numbers_of "lights_on_time" [steady_sample 0; steady_sample 60]))))
    ∧ dict_get "lights_on_time_median" agg
        = Some (VStr (F_str (reduce_median
             (numbers_of "lights_on_time" [steady_sample 0; steady_sample 60]))))
    ∧ float_column [steady_sample 0; steady_sample 60] "lights_off_time" = None.
Proof.
  apply (aggregation_of_sampled_buffer QFloat PlainLib env_steady
           strict_object_reduce 2 0 world0 steady_run.2
           [steady_sample 0; steady_sample 60]).
  reflexivity.
Defined.

(** ** The flush, further *)

Lemma append_assoc (a b c : string) : (a +:+ b) +:+ c = a +:+ (b +:+ c).
Proof.
  induction a as [|x a IH]; [reflexivity|].
  rewrite !append_cons. by rewrite IH.
Qed.

Lemma file_name_head_cases cfg curr_time :
  file_name_head cfg curr_time =
    match cfg !! "cage_id", cfg !! "bird_name" with
    | None, _ => Raise (KeyError "cage_id")
    | Some _, None => Raise (KeyError "bird_name")
    | Some cage_id, Some bird_name =>
      Ok ("cage_" +:+ str_of cage_id +:+ "_" +:+ str_of bird_name +:+ "_"
          +:+ curr_time)
    end.
Proof.
  unfold file_name_head, config_item.
  destruct (cfg !! "cage_id"); [|reflexivity].
  destruct (cfg !! "bird_name"); reflexivity.
Qed.

(** The file name of a flush is bound exactly when a mode applies and the
    configuration has both subject identifiers; it is then [cage_], the
    cage identifier, the bird name and the time of the write, joined by
    underscores, followed by the suffix of the mode. *)
Theorem flush_file_name_returns
  (cfg : gmap string pyval) (curr_time name : string) :
  flush_file_name cfg curr_time = Ok name ↔
  ∃ cage_id bird_name m,
    cfg !! "cage_id" = Some cage_id
    ∧ cfg !! "bird_name" = Some bird_name
    ∧ priority_mode cfg = Some m
    ∧ name = "cage_" +:+ str_of cage_id +:+ "_" +:+ str_of bird_name +:+ "_"
             +:+ curr_time +:+ suffix_of m.
Proof.
  rewrite flush_file_name_mode. unfold named.
  rewrite file_name_head_cases. split.
  - destruct (priority_mode cfg) as [m|]; [|discriminate].
    destruct (cfg !! "cage_id") as [cage_id|]; [|discriminate].
    destruct (cfg !! "bird_name") as [bird_name|]; [|discriminate].
    intros [= <-]. exists cage_id, bird_name, m.
    rewrite !append_assoc. done.
  - intros (cage_id & bird_name & m & -> & -> & -> & ->).
    simpl. rewrite !append_assoc. reflexivity.
Qed.

Lemma bind_file_name_mode cfg curr_time :
  bind_file_name cfg curr_time =
    match priority_mode cfg with
    | Some m => name ← named cfg curr_time m; mret (Some name)
    | None => Ok None
    end.
Proof.
  unfold bind_file_name, priority_mode, named.
  destruct (config_get cfg "sunrise" (PyInt 0)),
    (config_get cfg "sunset" (PyInt 0)),
    (config_get cfg "stable_date" (PyInt 0)),
    (config_get cfg "days_offset" (PyInt 0)); try reflexivity;
    simpl; destruct (file_name_head cfg curr_time); reflexivity.
Qed.

(** The path of the file of a flush, case by case, in the order in which
    the code meets the cases. *)
Lemma flush_output_path_cases (lib : PyLib) cfg curr_time :
  flush_output_path cfg curr_time =
    match priority_mode cfg with
    | Some m =>
      match cfg !! "cage_id", cfg !! "bird_name" with
      | None, _ => Raise (KeyError "cage_id")
      | Some _, None => Raise (KeyError "bird_name")
      | Some cage_id, Some bird_name =>
        match cfg !! "dataOutputBasePath" with
        | None => Raise (KeyError "dataOutputBasePath")
        | Some (PyStr base) =>
          Ok (os_path_join base
                (("cage_" +:+ str_of cage_id +:+ "_" +:+ str_of bird_name +:+ "_"
                  +:+ curr_time) +:+ suffix_of m))
        | Some _ => Raise TypeError
        end
      end
    | None =>
      match cfg !! "dataOutputBasePath" with
      | None => Raise (KeyError "dataOutputBasePath")
      | Some _ => Raise (NameError "file_name")
      end
    end.
Proof.
  unfold flush_output_path. rewrite bind_file_name_mode. unfold named.
  rewrite file_name_head_cases. unfold join_output_path, config_item.
  destruct (priority_mode cfg) as [m|]; simpl.
  - destruct (cfg !! "cage_id") as [cage_id|]; [|reflexivity].
    destruct (cfg !! "bird_name") as [bird_name|]; [|reflexivity]. simpl.
    destruct (cfg !! "dataOutputBasePath") as [[]|]; reflexivity.
  - destruct (cfg !! "dataOutputBasePath"); reflexivity.
Qed.

Ltac break_cases :=
  repeat match goal with
         | H : _ ∨ _ |- _ => destruct H as [H|H]
         | H : _ ∧ _ |- _ => let H' := fresh in destruct H as [H' H]
         | H : is_Some None |- _ => by destruct H
         | H : is_Some (Some _) |- _ => clear H
         | H : ∃ _, _ |- _ => let v := fresh "v" in destruct H as [v H]
         | H : Some _ = None |- _ => discriminate H
         | H : None = Some _ |- _ => discriminate H
         | H : Some _ = Some ?v |- _ => is_var v; injection H as <-
         | H : ∀ s, PyStr _ ≠ PyStr s |- _ => exfalso; by eapply H
         end.

(** The path of the file of a flush fails to be built in five ways only,
    met in this order.  When a mode applies: [KeyError] of [cage_id] when
    that key is absent, [KeyError] of [bird_name] when only that one is.
    Then, whether a mode applies or not, [KeyError] of [dataOutputBasePath]
    when the output directory is absent: the subscript is evaluated before
    the file name is read.  Then [NameError] on [file_name] when no mode
    applies, and [TypeError] when the output directory is no text. *)
Theorem flush_output_path_raises
  (lib : PyLib) (cfg : gmap string pyval) (curr_time : string) (e : exn) :
  flush_output_path cfg curr_time = Raise e ↔
  (is_Some (priority_mode cfg) ∧ cfg !! "cage_id" = None
   ∧ e = KeyError "cage_id")
  ∨ (is_Some (priority_mode cfg) ∧ is_Some (cfg !! "cage_id")
     ∧ cfg !! "bird_name" = None ∧ e = KeyError "bird_name")
  ∨ ((priority_mode cfg = None
      ∨ (is_Some (cfg !! "cage_id") ∧ is_Some (cfg !! "bird_name")))
     ∧ cfg !! "dataOutputBasePath" = None
     ∧ e = KeyError "dataOutputBasePath")
  ∨ (priority_mode cfg = None ∧ is_Some (cfg !! "dataOutputBasePath")
     ∧ e = NameError "file_name")
  ∨ (is_Some (priority_mode cfg) ∧ is_Some (cfg !! "cage_id")
     ∧ is_Some (cfg !! "bird_name")
     ∧ (∃ v, cfg !! "dataOutputBasePath" = Some v ∧ ∀ s, v ≠ PyStr s)
     ∧ e = TypeError).
Proof.
  rewrite flush_output_path_cases.
  destruct (priority_mode cfg) as [m|];
    destruct (cfg !! "cage_id") as [cage_id|];
    destruct (cfg !! "bird_name") as [bird_name|];
    destruct (cfg !! "dataOutputBasePath") as [base|];
    try destruct base.
  all: split; [|intros H; break_cases; first [discriminate | by subst]].
  all: intros H; first [discriminate H | injection H as <-].
  all: try (left; by eauto).
  all: try (right; left; by eauto).
  all: try (right; right; left; by eauto 6).
  all: try (right; right; right; left; by eauto).
  all: right; right; right; right;
    (split; [by eauto|]); (split; [by eauto|]); (split; [by eauto|]);
    (split; [|done]); eexists; (split; [done|]); intros s; discriminate.
Qed.

Section FlushMore.
Context {fm : PyFloat} {lib : PyLib}.
Variable E : env.

(** The flush branch, case by case. *)
Lemma flush_check_cases cfg st w :
  flush_check E cfg st w =
    let w1 := (now E w).2 in
    if flush_due (hour_loop_start_time st) (clock E (clock_reads w)) then
      let w2 := (now E (print EvFlushDue w1).2).2 in
      match flush_output_path cfg
              (strftime "%Y%m%d_%H_%M_%S" (clock E (S (clock_reads w)))) with
      | Raise e => (Raise e, w2)
      | Ok output_path =>
        match to_csv_error E output_path with
        | Some f =>
          (Raise (error_of f),
           (to_csv E output_path (data_from_last_hour st) w2).2)
        | None =>
          (Ok {| data_from_last_hour := [];
                 hour_loop_start_time := clock E (S (S (clock_reads w))) |},
           (now E (print (EvWrote output_path)
                     (to_csv E output_path (data_from_last_hour st) w2).2).2).2)
        end
      end
    else (Ok st, w1).
Proof.
  unfold flush_check, to_csv. unfold_py. simpl.
  destruct (flush_due _ _); [|reflexivity]. simpl.
  destruct (flush_output_path cfg _) as [output_path|e]; [|reflexivity].
  simpl. destruct (to_csv_error E output_path) as [[]|]; reflexivity.
Qed.


End FlushMore.

(** A flush raises only once the flush test has held, and has then printed
    that it is writing and nothing more.  What it leaves on disk depends on
    where it stopped: nothing new when the path of the file could not be
    built or the file could not be opened; and when the write stopped on
    the way, one file at the path of the flush, created or truncated, that
    holds only the first rows of the batch. *)
Theorem failed_flush_leaves_at_most_a_partial_file
  (fm : PyFloat) (lib : PyLib) (E : env) (cfg : gmap string pyval)
  (st : loop_state) (w w' : world) (e : exn) :
  flush_check E cfg st w = (Raise e, w') →
  flush_due (hour_loop_start_time st) (clock E (clock_reads w)) = true
  ∧ stdout w' = stdout w ++ [EvFlushDue]
  ∧ ((flush_output_path cfg
        (strftime "%Y%m%d_%H_%M_%S" (clock E (S (clock_reads w)))) = Raise e
      ∧ disk w' = disk w)
     ∨ (∃ output_path,
          flush_output_path cfg
            (strftime "%Y%m%d_%H_%M_%S" (clock E (S (clock_reads w))))
            = Ok output_path
          ∧ ((to_csv_error E output_path = Some (NotOpened e)
              ∧ disk w' = disk w)
             ∨ (∃ rows_written,
                  to_csv_error E output_path = Some (Interrupted e rows_written)
                  ∧ disk w' = disk w
                      ++ [(output_path,
                           take rows_written (data_from_last_hour st))])))).
Proof.
  rewrite flush_check_cases. cbv zeta.
  destruct (flush_due _ _); [|discriminate].
  destruct (flush_output_path cfg _) as [output_path|e'] eqn:Hpath.
  - unfold to_csv.
    destruct (to_csv_error E output_path) as [[err|err n]|] eqn:Hcsv;
      [| |discriminate]; simpl; intros [= <- <-]; simpl;
      (split; [done|]); (split; [done|]); right; exists output_path;
      (split; [done|]).
    + left. done.
    + right. by eauto.
  - intros [= <- <-]. simpl. split; [done|]. split; [done|]. left. done.
Qed.

Lemma failed_flush_leaves_at_most_a_partial_file_witness :
  flush_due 0 (200 * second) = true
  ∧ stdout interrupted_world = [] ++ [EvFlushDue]
  ∧ ((flush_output_path (lib := PlainLib) config_zero "200000000"
        = Raise OSError
      ∧ disk interrupted_world = [])
     ∨ (∃ output_path,
          flush_output_path (lib := PlainLib) config_zero "200000000"
            = Ok output_path
          ∧ ((to_csv_error env_disk_full output_path = Some (NotOpened OSError)
              ∧ disk interrupted_world = [])
             ∨ (∃ rows_written,
                  to_csv_error env_disk_full output_path
                    = Some (Interrupted OSError rows_written)
                  ∧ disk interrupted_world
                    = [] ++ [(output_path, take rows_written buffer_two)])))).
Proof.
  apply (failed_flush_leaves_at_most_a_partial_file QFloat PlainLib
           env_disk_full config_zero (hour_state buffer_two 0) world0
           interrupted_world OSError).
  reflexivity.
Defined.

Lemma flush_file_name_returns_witness :
  flush_file_name config_zero "20240501_10_00_00" =
    Ok "cage_7_zebra_20240501_10_00_00_manually_set.csv".
Proof.
  apply (proj2 (flush_file_name_returns config_zero "20240501_10_00_00"
                  "cage_7_zebra_20240501_10_00_00_manually_set.csv")).
  exists (PyInt 7), (PyStr "zebra"), ManuallySet.
  repeat split; vm_compute; reflexivity.
Defined.

Lemma flush_output_path_raises_witness :
  (config_bare !! "dataOutputBasePath" = None
   ∧ flush_output_path (lib := PlainLib) config_bare "20240501_10_00_00" =
       Raise (KeyError "dataOutputBasePath"))
  ∧ flush_output_path (lib := PlainLib) config_no_mode "20240501_10_00_00" =
      Raise (NameError "file_name")
  ∧ flush_output_path (lib := PlainLib) config_anonymous "20240501_10_00_00" =
      Raise (KeyError "cage_id").
Proof.
  split; [split; [vm_compute; reflexivity|]|split].
  - apply (proj2 (flush_output_path_raises PlainLib config_bare
                    "20240501_10_00_00" (KeyError "dataOutputBasePath"))).
    right. right. left. split; [left|split]; vm_compute; reflexivity.
  - apply (proj2 (flush_output_path_raises PlainLib config_no_mode
                    "20240501_10_00_00" (NameError "file_name"))).
    right. right. right. left.
    split; [vm_compute; reflexivity|]. split; [|reflexivity].
    exists (PyStr "/data"). vm_compute. reflexivity.
  - apply (proj2 (flush_output_path_raises PlainLib config_anonymous
                    "20240501_10_00_00" (KeyError "cage_id"))).
    left. split; [|split; [vm_compute; reflexivity|reflexivity]].
    exists ManuallySet. vm_compute. reflexivity.
Defined.

(** ** One pass of the main loop *)



(** With recording switched off, by any value that is false in a test, a
    pass sleeps one hour, reads nothing from the serial line, writes no
    file and leaves the batch and its start as they were. *)
Theorem main_iteration_idle
  (fm : PyFloat) (lib : PyLib) (E : env)
  (object_reduce : reduction → column → outcome value)
  (cfg : gmap string pyval) (fuel : nat) (st : loop_state) (w : world)
  (recording : pyval) :
  cfg !! "dataReadingAndSaving" = Some recording →
  truthy recording = false →
  ∃ w', main_iteration E object_reduce cfg fuel st w = (Ok (Some st), w')
        ∧ slept w' = slept w + 3600
        ∧ serial_reads w' = serial_reads w
        ∧ disk w' = disk w.
Proof.
  intros Hcfg Hfalse. unfold main_iteration, config_item. rewrite Hcfg.
  unfold_py. simpl. rewrite Hfalse. simpl. by eexists.
Qed.

Lemma main_iteration_idle_witness :
  ∃ w', main_iteration (lib := PlainLib) env_steady strict_object_reduce
          config_idle 5 (hour_state buffer_two 0) world0
          = (Ok (Some (hour_state buffer_two 0)), w')
        ∧ slept w' = 0 + 3600
        ∧ serial_reads w' = 0%nat
        ∧ disk w' = [].
Proof.
  apply (main_iteration_idle QFloat PlainLib env_steady strict_object_reduce
           config_idle 5 (hour_state buffer_two 0) world0 (PyBool false));
    reflexivity.
Defined.

(** ** Time *)

(** Both tests of the elapsed time see it modulo one day: a clock that
    shows any whole number of days more, or less, gives the same answers. *)
Theorem elapsed_time_is_seen_modulo_one_day (start t days : Z) :
  flush_due start (t + days * (86400 * second)) = flush_due start t
  ∧ minute_over start (t + days * (86400 * second)) = minute_over start t.
Proof.
  assert (H : timedelta_seconds (t + days * (86400 * second) - start)
              = timedelta_seconds (t - start)).
  { unfold timedelta_seconds, second.
    replace (t + days * (86400 * 1000000) - start)
      with (t - start + (days * 86400) * 1000000) by lia.
    rewrite Z.div_add by lia. rewrite Z.mod_add by lia. reflexivity. }
  rewrite !flush_due_seconds. unfold minute_over. rewrite H. done.
Qed.
